(** * fly set-pipeline helpers: variable resolution, configuration diff
      and the apply workflow

    A shallow embedding of [commands/internal/setpipelinehelpers/atc_config.go]
    and of the contracts it relies on, followed by the properties proved
    about it.  Go packages are mirrored by modules ([template], [temp],
    [flaghelpers], [concourse], [atc]); the receiver type [ATCConfig] and its
    methods keep their names. *)

From Stdlib Require Import ZArith Ascii String List.
From stdpp Require Import base option list strings pretty gmap fin_maps.

Open Scope string_scope.
Open Scope list_scope.

(* ===================================================================== *)
(** ** Errors and fallible results *)
(* ===================================================================== *)

(** Go's [error] values as they are told apart by the workflow:
    [concourse.PipelineConfigError] is recognised by a type assertion in
    [Set]; the two others are named by the error taxonomy; any other error
    is generic. *)
Inductive error : Type :=
| PipelineConfigError (ErrorMessages : list string)
| DecodeError (payload : string)
| MissingVariableError (names : list string)
| GenericError (msg : string).

(** A Go pair [(value, err)] with the convention that [err != nil] makes
    the value meaningless. *)
Inductive Result (A : Type) : Type :=
| Ok (a : A)
| Err (e : error).
Arguments Ok {A} a.
Arguments Err {A} e.

#[global] Instance Result_ret : MRet Result := fun _ a => Ok a.
#[global] Instance Result_bind : MBind Result := fun _ _ f r =>
  match r with
  | Ok a => f a
  | Err e => Err e
  end.

(** [mapM]: decode every element in list order, stopping at the first
    failure. *)
Fixpoint traverse {A B : Type} (f : A -> Result B) (l : list A) : Result (list B) :=
  match l with
  | [] => Ok []
  | a :: l' => b ← f a; bs ← traverse f l'; Ok (b :: bs)
  end.

(* ===================================================================== *)
(** ** [flaghelpers]: a variable given on the command line *)
(* ===================================================================== *)

(** A value of the current variable namespace ([interface{}] holding a
    decoded YAML scalar). *)
Inductive value : Type :=
| VString (s : string)
| VBool (b : bool)
| VInt (z : Z).

Module flaghelpers.
(** [VariablePairFlag]: the same flag carries a typed value for the
    current namespace and the raw text for the legacy one. *)
Record VariablePairFlag : Type := {
  Name : string;
  Value : value;
  OldValue : string
}.
End flaghelpers.

(* ===================================================================== *)
(** ** Placeholders in a raw document *)
(* ===================================================================== *)

(** The two template packages imported by the source ([template], the
    current syntax, and [temp], the deprecated one) are not part of
    [atc_config.go].  Their documents are byte strings in which a
    placeholder is a name between doubled brackets: round brackets for the
    current syntax, curly ones for the deprecated syntax. *)
Module placeholder.

(** Modelled from the spec: a RawDocument is a byte sequence containing
    zero or more placeholders; scanned, it is a sequence of plain
    characters and placeholders. *)
Inductive segment : Type :=
| Chr (c : ascii)
| Hole (name : string).

(** The character code lies between two bounds. *)
Definition within (lo hi : nat) (c : ascii) : bool :=
  (lo <=? nat_of_ascii c)%nat && (nat_of_ascii c <=? hi)%nat.

(** Modelled from the spec: the characters of a variable name (letters,
    digits, dash and underscore). *)
Definition name_char (c : ascii) : bool :=
  within 48 57 c || within 65 90 c || within 97 122 c
  || bool_decide (c = "-"%char) || bool_decide (c = "_"%char).

(** Modelled from the spec: the longest prefix of name characters, and
    what follows it. *)
Fixpoint take_name (s : string) : string * string :=
  match s with
  | EmptyString => (EmptyString, EmptyString)
  | String c s' =>
      if name_char c
      then let '(n, r) := take_name s' in (String c n, r)
      else (EmptyString, s)
  end.

(** Modelled from the spec: the textual marker form of a placeholder.
    [marker o c s] tells whether [s] starts with a placeholder opened by
    two [o] and closed by two [c], and returns its (non-empty) name. *)
Definition marker (o c : ascii) (s : string) : option string :=
  match s with
  | String a (String b s') =>
      if bool_decide (a = o) && bool_decide (b = o) then
        match take_name s' with
        | (String n0 n, String x (String y _)) =>
            if bool_decide (x = c) && bool_decide (y = c)
            then Some (String n0 n) else None
        | _ => None
        end
      else None
  | _ => None
  end.

(** Modelled from the spec: the left-to-right scan of a document for
    placeholders.  [skip] counts the characters of the placeholder just
    recognised that are still to be passed over. *)
Fixpoint scan (o c : ascii) (skip : nat) (s : string) : list segment :=
  match s with
  | EmptyString => []
  | String a s' =>
      match skip with
      | S k => scan o c k s'
      | O =>
          match marker o c s with
          | Some n => Hole n :: scan o c (String.length n + 3) s'
          | None => Chr a :: scan o c 0 s'
          end
      end
  end.

(** Modelled from the spec: the names of the placeholders, in order of
    occurrence. *)
Fixpoint holes (segs : list segment) : list string :=
  match segs with
  | [] => []
  | Chr _ :: segs' => holes segs'
  | Hole n :: segs' => n :: holes segs'
  end.

(** Modelled from the spec: the text of a placeholder left unresolved. *)
Definition verbatim (o c : ascii) (n : string) : string :=
  String o (String o (n +:+ String c (String c EmptyString))).

(** Modelled from the spec: substitution.  A resolved placeholder becomes
    the text of its value, an unresolved one stays as it is written. *)
Fixpoint fill (o c : ascii) (text : string -> option string)
    (segs : list segment) : string :=
  match segs with
  | [] => EmptyString
  | Chr a :: segs' => String a (fill o c text segs')
  | Hole n :: segs' =>
      match text n with
      | Some t => t +:+ fill o c text segs'
      | None => verbatim o c n +:+ fill o c text segs'
      end
  end.

End placeholder.

(* ===================================================================== *)
(** ** [template]: the current evaluator and its variable sources *)
(* ===================================================================== *)

Module template.
Import placeholder.

(** [StaticVariables] is a Go map from names to values. *)
Abbreviation StaticVariables := (gmap string value).

(** [EvaluateOpts], of which the source sets [ExpectAllKeys]: strict
    mode. *)
Record EvaluateOpts : Type := { ExpectAllKeys : bool }.

(** Modelled from the spec: [NewMultiVars] of the external template
    library, the VariableStore over an ordered list of sources.  A
    lookup is answered by the first source of the list that has the
    key: flag-supplied values, which [resolveTemplates] puts first,
    always win. *)
Fixpoint NewMultiVars (varss : list StaticVariables) (k : string) : option value :=
  match varss with
  | [] => None
  | vars :: rest =>
      match vars !! k with
      | Some v => Some v
      | None => NewMultiVars rest k
      end
  end.

(** Modelled from the spec: the text a value is replaced by. *)
Definition show (v : value) : string :=
  match v with
  | VString s => s
  | VBool true => "true"
  | VBool false => "false"
  | VInt z => pretty z
  end.

(** Modelled from the spec: the current-syntax placeholders of a
    document, in order of occurrence. *)
Definition placeholders (doc : string) : list string :=
  holes (scan "(" ")" 0 doc).

(** Modelled from the spec: a placeholder with no corresponding entry. *)
Definition is_missing (vars : string -> option value) (n : string) : bool :=
  match vars n with
  | Some _ => false
  | None => true
  end.

(** Modelled from the spec: [Template.Evaluate] of the external template
    library, the current evaluator of section 4.2.  With [ExpectAllKeys]
    it is strict: it fails with [MissingVariableError] naming every
    placeholder without an entry, and produces no document. *)
Definition Evaluate (tpl : string) (vars : string -> option value)
    (opts : EvaluateOpts) : Result string :=
  let segs := scan "(" ")" 0 tpl in
  let missing := List.filter (is_missing vars) (holes segs) in
  match ExpectAllKeys opts, missing with
  | true, _ :: _ => Err (MissingVariableError missing)
  | _, _ => Ok (fill "(" ")" (fun n => show <$> vars n) segs)
  end.

End template.

(* ===================================================================== *)
(** ** [temp]: the deprecated template style *)
(* ===================================================================== *)

Module temp.
Import placeholder.

(** [Variables] is a Go map from names to raw strings. *)
Abbreviation Variables := (gmap string string).

(** Modelled from the spec: [Variables.Merge] of the repository's
    [template] package, which is outside [atc_config.go].  Key overwrite
    without error: on collision the argument's value replaces the
    receiver's, so that the flags, merged last, win. *)
Definition Merge (v other : Variables) : Variables := other ∪ v.

(** Modelled from the spec: [Present] of the repository's [template]
    package, a pure predicate over the raw bytes telling whether the
    deprecated placeholder form occurs. *)
Definition Present (content : string) : bool :=
  match holes (scan "{" "}" 0 content) with
  | [] => false
  | _ :: _ => true
  end.

(** Modelled from the spec: [Evaluate] of the repository's [template]
    package, the legacy evaluator.  Not strict: an unresolved
    placeholder is left as it is, and evaluation never fails. *)
Definition Evaluate (content : string) (vars : Variables) : Result string :=
  Ok (fill "{" "}" (fun n => vars !! n) (scan "{" "}" 0 content)).

End temp.

(* ===================================================================== *)
(** ** [atc]: configurations, name-keyed indices and their difference *)
(* ===================================================================== *)

Section Configuration.

(** The opaque structural content of an entity, compared by deep
    structural equality. *)
Context {Body : Type} `{!EqDecision Body}.

(** Modelled from the spec: an entity of a collection, with its name and
    its body. *)
Record Entity : Type := {
  name : string;
  body : Body
}.

(** Modelled from the spec: [atc.Config], of which the source reads four
    independent named collections. *)
Record Config : Type := {
  Groups : list Entity;
  Resources : list Entity;
  ResourceTypes : list Entity;
  Jobs : list Entity
}.

(** Modelled from the spec: a DiffRecord, the [Diff] type of the package
    declared outside [atc_config.go]. *)
Inductive DiffRecord : Type :=
| Added (e : Entity)
| Removed (e : Entity)
| Changed (n : string) (oldBody newBody : Body).

(** Modelled from the spec: the index types [GroupIndex],
    [ResourceIndex], [ResourceTypeIndex] and [JobIndex] of the package,
    declared outside [atc_config.go].  A NamedEntityIndex has one entry
    per distinct name; the entry under [n] stands for the entity of that
    name and holds its body.  Duplicate names collapse to the last
    occurrence. *)
Definition NamedEntityIndex (collection : list Entity) : gmap string Body :=
  foldl (fun idx e => <[name e := body e]> idx) ∅ collection.

(** Modelled from the spec: every name present in the existing index but
    absent from the new one. *)
Definition removed (existingIndex newIndex : gmap string Body) : list DiffRecord :=
  omap (fun '(n, b) =>
          match newIndex !! n with
          | None => Some (Removed {| name := n; body := b |})
          | Some _ => None
          end)
       (map_to_list existingIndex).

(** Modelled from the spec: every name present in the new index but
    absent from the existing one. *)
Definition added (existingIndex newIndex : gmap string Body) : list DiffRecord :=
  omap (fun '(n, b) =>
          match existingIndex !! n with
          | None => Some (Added {| name := n; body := b |})
          | Some _ => None
          end)
       (map_to_list newIndex).

(** Modelled from the spec: every name present in both whose bodies are
    not equal, with the two bodies. *)
Definition changed (existingIndex newIndex : gmap string Body) : list DiffRecord :=
  omap (fun '(n, b) =>
          match newIndex !! n with
          | Some b' => if decide (b = b') then None else Some (Changed n b b')
          | None => None
          end)
       (map_to_list existingIndex).

(** Modelled from the spec: [diffIndices], the DiffEngine of section
    4.4, declared outside [atc_config.go].  Removed entries come first,
    then added ones, then changed ones. *)
Definition diffIndices (existingIndex newIndex : gmap string Body) : list DiffRecord :=
  removed existingIndex newIndex
  ++ added existingIndex newIndex
  ++ changed existingIndex newIndex.

End Configuration.

Arguments Entity Body : clear implicits.
Arguments Config Body : clear implicits.
Arguments DiffRecord Body : clear implicits.

(* ===================================================================== *)
(** ** [concourse]: the team client *)
(* ===================================================================== *)

Module concourse.

Record ConfigWarning : Type := { Message : string }.

(** Answer of [Team.PipelineConfig]: configuration, raw text, version,
    found flag and error, as the Go call returns them together. *)
Record Fetched (Body : Type) : Type := {
  fetchedConfig : Config Body;
  fetchedRaw : string;
  fetchedVersion : string;
  fetchedFound : bool;
  fetchedErr : option error
}.
Arguments fetchedConfig {Body} _.
Arguments fetchedRaw {Body} _.
Arguments fetchedVersion {Body} _.
Arguments fetchedFound {Body} _.
Arguments fetchedErr {Body} _.

(** Answer of [Team.CreateOrUpdatePipelineConfig]. *)
Record Stored : Type := {
  storedCreated : bool;
  storedUpdated : bool;
  storedWarnings : list ConfigWarning;
  storedErr : option error
}.

(** The [Team] interface, as far as the workflow calls it. *)
Record Team (Body : Type) : Type := {
  Name : string;
  PipelineConfig : string -> Fetched Body;
  CreateOrUpdatePipelineConfig : string -> string -> string -> Stored
}.
Arguments Name {Body} _.
Arguments PipelineConfig {Body} _ _.
Arguments CreateOrUpdatePipelineConfig {Body} _ _ _ _.

End concourse.

(* ===================================================================== *)
(** ** The environment and the command monad *)
(* ===================================================================== *)

(** What the workflow reaches outside itself, apart from the team client:
    the file system, the YAML decoder at the three types it is used at,
    and the terminal prompt. *)
Record World (Body : Type) : Type := {
  ReadFile : string -> Result string;
  UnmarshalStaticVariables : string -> Result template.StaticVariables;
  UnmarshalVariables : string -> Result temp.Variables;
  UnmarshalConfig : string -> Result (Config Body);
  Resolve : string -> Result bool
}.
Arguments ReadFile {Body} _ _.
Arguments UnmarshalStaticVariables {Body} _ _.
Arguments UnmarshalVariables {Body} _ _.
Arguments UnmarshalConfig {Body} _ _.
Arguments Resolve {Body} _ _.

(** What an execution does that can be observed, in order: lines written,
    diff records rendered, calls to the collaborators, and which evaluator
    is started on which document. *)
Inductive event (Body : Type) : Type :=
| Println (line : string)
| Errln (line : string)
| PrintWarningHeader
| PrintDeprecationWarningHeader
| Render (label : string) (d : DiffRecord Body)
| Interaction (question : string)
| LegacyEvaluator (doc : string)
| CurrentEvaluator (doc : string)
| Fetch (pipeline : string)
| Store (pipeline version payload : string).
Arguments Println {Body} line.
Arguments Errln {Body} line.
Arguments PrintWarningHeader {Body}.
Arguments PrintDeprecationWarningHeader {Body}.
Arguments Render {Body} label d.
Arguments Interaction {Body} question.
Arguments LegacyEvaluator {Body} doc.
Arguments CurrentEvaluator {Body} doc.
Arguments Fetch {Body} pipeline.
Arguments Store {Body} pipeline version payload.

(** How a call ends when it does not hand a value to its continuation:
    the method returns an error (or [nil]), the process exits through
    [displayhelpers.Fail...], or it panics. *)
Inductive halt : Type :=
| Return (err : option error)
| Exit (message : string) (cause : error)
| Panic (message : string).

(** A command: the events it produced, and a value or the way it ended. *)
Definition Cmd (Body A : Type) : Type := list (event Body) * (A + halt).

#[global] Instance Cmd_ret {Body} : MRet (Cmd Body) := fun _ a => ([], inl a).
#[global] Instance Cmd_bind {Body} : MBind (Cmd Body) := fun _ _ f c =>
  match c with
  | (t, inl a) => let '(t', r) := f a in (t ++ t', r)
  | (t, inr h) => (t, inr h)
  end.

Definition emit {Body} (e : event Body) : Cmd Body unit := ([e], inl tt).
Definition stop {Body A} (h : halt) : Cmd Body A := ([], inr h).

(** [forM_]: a Go [for ... range] loop whose body is a command. *)
Fixpoint each {Body A} (f : A -> Cmd Body unit) (l : list A) : Cmd Body unit :=
  match l with
  | [] => mret tt
  | a :: l' => _ ← f a; each f l'
  end.

(** [displayhelpers.FailWithErrorf] and [Failf]: report and leave the
    process. *)
Definition orFail {Body A} (message : string) (r : Result A) : Cmd Body A :=
  match r with
  | Ok a => mret a
  | Err e => stop (Exit message e)
  end.

(** A method with result type [error] that reaches its end, or a
    [return err] on the way. *)
Definition finish {Body} (c : Cmd Body unit) : list (event Body) * halt :=
  match c with
  | (t, inl _) => (t, Return None)
  | (t, inr h) => (t, h)
  end.

(* ===================================================================== *)
(** ** [ATCConfig] and its methods *)
(* ===================================================================== *)

Record ATCConfig (Body : Type) : Type := {
  PipelineName : string;
  Team : concourse.Team Body;
  (** [WebRequestGenerator.CreateRequest(web.Pipeline, ...)], reduced to
      the address it yields for a pipeline and a team name once the user
      information is removed. *)
  WebRequestGenerator : string -> string -> string;
  SkipInteraction : bool
}.
Arguments PipelineName {Body} _.
Arguments Team {Body} _.
Arguments WebRequestGenerator {Body} _ _ _.
Arguments SkipInteraction {Body} _.

Section Methods.

Context {Body : Type} `{!EqDecision Body}.
Context (w : World Body).

Import flaghelpers.

Definition ApplyConfigInteraction (atcConfig : ATCConfig Body) : Cmd Body bool :=
  if SkipInteraction atcConfig then mret true
  else
    _ ← emit (Interaction "apply configuration?");
    match Resolve w "apply configuration?" with
    | Err _ => mret false
    | Ok confirm => mret confirm
    end.

(** The flag map of [resolveTemplates]: a later flag of the same name
    overwrites an earlier one. *)
Definition flagVars (variables : list VariablePairFlag) : template.StaticVariables :=
  foldl (fun m f => <[Name f := Value f]> m) ∅ variables.

(** The sources handed to [template.NewMultiVars]: the flags, then the
    files decoded from the last payload down to the first. *)
Definition currentVars (paramPayloads : list string)
    (variables : list VariablePairFlag) : Result (list template.StaticVariables) :=
  staticVars ← traverse (UnmarshalStaticVariables w) (rev paramPayloads);
  Ok (flagVars variables :: staticVars).

Definition resolveTemplates (configPayload : string) (paramPayloads : list string)
    (variables : list VariablePairFlag) : Result string :=
  vars ← currentVars paramPayloads variables;
  template.Evaluate configPayload (template.NewMultiVars vars)
    {| template.ExpectAllKeys := true |}.

(** The first loop of [resolveDeprecatedTemplateStyle]: payloads are
    decoded and merged from the first to the last. *)
Fixpoint mergePayloads (vars : temp.Variables) (paramPayloads : list string)
    : Result temp.Variables :=
  match paramPayloads with
  | [] => Ok vars
  | payload :: rest =>
      payloadVars ← UnmarshalVariables w payload;
      mergePayloads (temp.Merge vars payloadVars) rest
  end.

Definition oldFlagVars (variables : list VariablePairFlag) : temp.Variables :=
  foldl (fun m flag => <[Name flag := OldValue flag]> m) ∅ variables.

(** The variables handed to [temp.Evaluate]. *)
Definition legacyVars (paramPayloads : list string)
    (variables : list VariablePairFlag) : Result temp.Variables :=
  vars ← mergePayloads ∅ paramPayloads;
  Ok (temp.Merge vars (oldFlagVars variables)).

Definition resolveDeprecatedTemplateStyle (configPayload : string)
    (paramPayloads : list string) (variables : list VariablePairFlag) : Result string :=
  vars ← legacyVars paramPayloads variables;
  temp.Evaluate configPayload vars.

(** The loop of [newConfig] over the variable files. *)
Fixpoint readPayloads (templateVariablesFiles : list string) : Cmd Body (list string) :=
  match templateVariablesFiles with
  | [] => mret []
  | path :: rest =>
      templateVars ← orFail ("could not read template variables file (" +:+ path +:+ ")")
                       (ReadFile w path);
      paramPayloads ← readPayloads rest;
      mret (templateVars :: paramPayloads)
  end.

Definition newConfig (atcConfig : ATCConfig Body) (configPath : string)
    (templateVariablesFiles : list string)
    (templateVariables : list VariablePairFlag) : Cmd Body string :=
  evaluatedConfig ← orFail "could not read config file" (ReadFile w configPath);
  paramPayloads ← readPayloads templateVariablesFiles;
  evaluatedConfig ←
    (if temp.Present evaluatedConfig then
       _ ← emit (LegacyEvaluator evaluatedConfig);
       orFail "could not resolve old-style template vars"
         (resolveDeprecatedTemplateStyle evaluatedConfig paramPayloads templateVariables)
     else mret evaluatedConfig);
  _ ← emit (CurrentEvaluator evaluatedConfig);
  orFail "could not resolve template vars"
    (resolveTemplates evaluatedConfig paramPayloads templateVariables).

Definition showPipelineConfigErrors (errorMessages : list string) : Cmd Body unit :=
  _ ← emit (Errln "");
  _ ← emit PrintWarningHeader;
  _ ← emit (Errln "Error loading existing config:");
  _ ← each (fun errorMessage => emit (Errln ("  - " +:+ errorMessage))) errorMessages;
  emit (Errln "").

Definition showWarnings (warnings : list concourse.ConfigWarning) : Cmd Body unit :=
  _ ← emit (Errln "");
  _ ← emit PrintDeprecationWarningHeader;
  _ ← each (fun warning => emit (Errln ("  - " +:+ concourse.Message warning))) warnings;
  emit (Errln "").

Definition showHelpfulMessage (atcConfig : ATCConfig Body)
    (created updated : bool) : Cmd Body unit :=
  if updated then emit (Println "configuration updated")
  else if created then
    let pipelineURL :=
      WebRequestGenerator atcConfig (PipelineName atcConfig)
        (concourse.Name (Team atcConfig)) in
    _ ← emit (Println "pipeline created!");
    _ ← emit (Println ("you can view your pipeline here: " +:+ pipelineURL));
    _ ← emit (Println "");
    _ ← emit (Println "the pipeline is currently paused. to unpause, either:");
    _ ← emit (Println "  - run the unpause-pipeline command");
    emit (Println "  - click play next to the pipeline in the web ui")
  else stop (Panic "Something really went wrong!").

(** One block of [diff]: a header and the records, when there are any. *)
Definition renderDiffs (header label : string) (diffs : list (DiffRecord Body))
    : Cmd Body unit :=
  match diffs with
  | [] => mret tt
  | _ :: _ =>
      _ ← emit (Println header);
      each (fun d => emit (Render label d)) diffs
  end.

Definition GroupIndex := @NamedEntityIndex Body.
Definition ResourceIndex := @NamedEntityIndex Body.
Definition ResourceTypeIndex := @NamedEntityIndex Body.
Definition JobIndex := @NamedEntityIndex Body.

Definition diff (existingConfig newConfig : Config Body) : Cmd Body unit :=
  let groupDiffs :=
    diffIndices (GroupIndex (Groups existingConfig)) (GroupIndex (Groups newConfig)) in
  _ ← renderDiffs "groups:" "group" groupDiffs;
  let resourceDiffs :=
    diffIndices (ResourceIndex (Resources existingConfig))
                (ResourceIndex (Resources newConfig)) in
  _ ← renderDiffs "resources:" "resource" resourceDiffs;
  let resourceTypeDiffs :=
    diffIndices (ResourceTypeIndex (ResourceTypes existingConfig))
                (ResourceTypeIndex (ResourceTypes newConfig)) in
  _ ← renderDiffs "resource types:" "resource type" resourceTypeDiffs;
  let jobDiffs :=
    diffIndices (JobIndex (Jobs existingConfig)) (JobIndex (Jobs newConfig)) in
  renderDiffs "jobs:" "job" jobDiffs.

(** The body of [Set] from the call that fetches the existing
    configuration on, [newConfig] being the resolved document. *)
Definition setResolved (atcConfig : ATCConfig Body) (newConfig : string) : Cmd Body unit :=
  _ ← emit (Fetch (PipelineName atcConfig));
  let fetched := concourse.PipelineConfig (Team atcConfig) (PipelineName atcConfig) in
  let existingConfig := concourse.fetchedConfig fetched in
  let existingConfigVersion := concourse.fetchedVersion fetched in
  errorMessages ←
    match concourse.fetchedErr fetched with
    | None => mret []
    | Some (PipelineConfigError ErrorMessages) => mret ErrorMessages
    | Some err => stop (Return (Some err))
    end;
  new ←
    match UnmarshalConfig w newConfig with
    | Ok new => mret new
    | Err err => stop (Return (Some err))
    end;
  _ ← diff existingConfig new;
  _ ← match errorMessages with
      | [] => mret tt
      | _ :: _ => showPipelineConfigErrors errorMessages
      end;
  confirmed ← ApplyConfigInteraction atcConfig;
  if negb confirmed then
    _ ← emit (Println "bailing out");
    stop (Return None)
  else
    _ ← emit (Store (PipelineName atcConfig) existingConfigVersion newConfig);
    let stored :=
      concourse.CreateOrUpdatePipelineConfig (Team atcConfig)
        (PipelineName atcConfig) existingConfigVersion newConfig in
    match concourse.storedErr stored with
    | Some err => stop (Return (Some err))
    | None =>
        _ ← match concourse.storedWarnings stored with
            | [] => mret tt
            | _ :: _ => showWarnings (concourse.storedWarnings stored)
            end;
        _ ← showHelpfulMessage atcConfig
              (concourse.storedCreated stored) (concourse.storedUpdated stored);
        stop (Return None)
    end.

(** [Set]; the name is reserved in Rocq. *)
Definition Set_ (atcConfig : ATCConfig Body) (configPath : string)
    (templateVariables : list VariablePairFlag)
    (templateVariablesFiles : list string) : list (event Body) * halt :=
  finish (
    newConfig ← newConfig atcConfig configPath templateVariablesFiles templateVariables;
    setResolved atcConfig newConfig).

End Methods.

(* ===================================================================== *)
(** ** A concrete environment *)
(* ===================================================================== *)

(** Bodies are plain strings here; two variable files, the first listed
    being [vars1.yml], and a pipeline that uses both variables. *)
Module demo.
Import flaghelpers.

Definition files : string -> Result string := fun path =>
  if decide (path = "pipeline.yml") then Ok "env: ((env)) region: ((region))"
  else if decide (path = "plain.yml") then Ok "jobs: []"
  else if decide (path = "old.yml") then Ok "env: {{env}} region: ((region))"
  else if decide (path = "vars1.yml") then Ok "env: staging"
  else if decide (path = "vars2.yml") then Ok "env: prod, region: us"
  else Err (GenericError "no such file").

Definition F1 : template.StaticVariables := {[ "env" := VString "staging" ]}.
Definition F2 : template.StaticVariables :=
  <["env" := VString "prod"]> {[ "region" := VString "us" ]}.

Definition L1 : temp.Variables := {[ "env" := "staging" ]}.
Definition L2 : temp.Variables := <["env" := "prod"]> {[ "region" := "us" ]}.

Definition resource (n b : string) : Entity string := {| name := n; body := b |}.

Definition existing : Config string :=
  {| Groups := []; Resources := [resource "a" "git"]; ResourceTypes := []; Jobs := [] |}.

Definition world (answer : Result bool) : World string := {|
  ReadFile := files;
  UnmarshalStaticVariables := fun payload =>
    if decide (payload = "env: staging") then Ok F1
    else if decide (payload = "env: prod, region: us") then Ok F2
    else Err (DecodeError payload);
  UnmarshalVariables := fun payload =>
    if decide (payload = "env: staging") then Ok L1
    else if decide (payload = "env: prod, region: us") then Ok L2
    else Err (DecodeError payload);
  UnmarshalConfig := fun payload =>
    if decide (payload = "jobs: []")
    then Ok {| Groups := []; Resources := [resource "a" "git"; resource "b" "s3"];
               ResourceTypes := []; Jobs := [] |}
    else Err (GenericError "cannot unmarshal");
  Resolve := fun _ => answer
|}.

Definition team (err : option error) (created updated : bool) : concourse.Team string := {|
  concourse.Name := "main";
  concourse.PipelineConfig := fun _ =>
    {| concourse.fetchedConfig := existing;
       concourse.fetchedRaw := "resources: [a]";
       concourse.fetchedVersion := "42";
       concourse.fetchedFound := true;
       concourse.fetchedErr := err |};
  concourse.CreateOrUpdatePipelineConfig := fun _ _ _ =>
    {| concourse.storedCreated := created;
       concourse.storedUpdated := updated;
       concourse.storedWarnings := [];
       concourse.storedErr := None |}
|}.

Definition atcConfig (err : option error) (created updated skip : bool) : ATCConfig string := {|
  PipelineName := "p";
  Team := team err created updated;
  WebRequestGenerator := fun pipeline team_name =>
    "http://ci/teams/" +:+ team_name +:+ "/pipelines/" +:+ pipeline;
  SkipInteraction := skip
|}.

Definition region_eu : VariablePairFlag :=
  {| Name := "region"; Value := VString "eu"; OldValue := "eu" |}.

Definition a_b : list VariablePairFlag :=
  [ {| Name := "a"; Value := VInt 1; OldValue := "1" |};
    {| Name := "b"; Value := VBool true; OldValue := "true" |} ].

End demo.

(* ===================================================================== *)
(** ** Observations on a trace *)
(* ===================================================================== *)

Definition isStore {Body} (e : event Body) : bool :=
  match e with
  | Store _ _ _ => true
  | _ => false
  end.

Definition isInteraction {Body} (e : event Body) : bool :=
  match e with
  | Interaction _ => true
  | _ => false
  end.

(** A stretch of execution that neither writes to the store nor consults
    the prompt. *)
Definition quiet {Body} (t : list (event Body)) : Prop :=
  Forall (fun e => isStore e = false /\ isInteraction e = false) t.

(** The lines that list the messages of an invalid stored configuration. *)
Definition messageLines {Body} (errorMessages : list string) : list (event Body) :=
  (fun m => Errln ("  - " +:+ m)) <$> errorMessages.

Section Layout.

Context {Body : Type} `{!EqDecision Body}.
Context (w : World Body).

(** How a run of the workflow after resolution is laid out: it stops
    with an error before the gate; or the gate declines and it bails
    out; or the gate accepts and the store is called, once. *)
Inductive layout (atcConfig : ATCConfig Body) (doc : string)
    : list (event Body) * (unit + halt) -> Prop :=
| stopped_early t e :
    quiet t -> layout atcConfig doc (t, inr (Return (Some e)))
| declined t tg :
    ApplyConfigInteraction w atcConfig = (tg, inl false) ->
    quiet t ->
    layout atcConfig doc (t ++ tg ++ [Println "bailing out"], inr (Return None))
| accepted t tg t' h :
    ApplyConfigInteraction w atcConfig = (tg, inl true) ->
    quiet t -> quiet t' ->
    layout atcConfig doc
      (t ++ tg
         ++ Store (PipelineName atcConfig)
              (concourse.fetchedVersion
                 (concourse.PipelineConfig (Team atcConfig) (PipelineName atcConfig)))
              doc :: t',
       inr h).

End Layout.

(* ===================================================================== *)
(** ** Precedence rules, stated on a lookup *)
(* ===================================================================== *)

Section Precedence.

Context {V : Type}.

(** [r] is what key [k] gets from the flags [G] and the files listed as
    [files]: the flag value when the flags have the key; otherwise the
    value of a file that has the key and is not beaten by any file [j]
    that [beats] its index; nothing when no file has the key. *)
Definition flagsThenFiles (beats : nat -> nat -> Prop)
    (G : gmap string V) (files : list (gmap string V))
    (k : string) (r : option V) : Prop :=
  match G !! k with
  | Some v => r = Some v
  | None =>
      (r = None /\ forall i F, files !! i = Some F -> F !! k = None)
      \/ (exists i F v,
            files !! i = Some F /\ F !! k = Some v /\ r = Some v
            /\ forall j F', beats j i -> files !! j = Some F' -> F' !! k = None)
  end.

(** The rule of the specification: among the files, the earliest listed
    one that has the key (lowest index) gives the value. *)
Definition earliestFileWins := flagsThenFiles (fun j i => (j < i)%nat).

(** The rule with the files taken the other way: the latest listed one
    that has the key (highest index) gives the value. *)
Definition latestFileWins := flagsThenFiles (fun j i => (i < j)%nat).

(** Value of [k] in the last map of the list that has it. *)
Fixpoint lastWith (files : list (gmap string V)) (k : string) : option V :=
  match files with
  | [] => None
  | F :: rest =>
      match lastWith rest k with
      | Some v => Some v
      | None => F !! k
      end
  end.

End Precedence.

(* ===================================================================== *)
(** ** The paths of a run once the document is resolved *)
(* ===================================================================== *)

Section Paths.

Context {Body : Type} `{!EqDecision Body}.
Context (w : World Body).

(** What [Set] keeps of the error returned by the fetch: no message
    without an error, the messages of a [PipelineConfigError]; with any
    other error it does not go on. *)
Definition toleratedMessages (err : option error) : option (list string) :=
  match err with
  | None => Some []
  | Some (PipelineConfigError ErrorMessages) => Some ErrorMessages
  | Some _ => None
  end.

(** Events of the block that shows the messages, written only when there
    is a message. *)
Definition shownErrors (errorMessages : list string) : list (event Body) :=
  match errorMessages with
  | [] => []
  | _ :: _ => (showPipelineConfigErrors errorMessages).1
  end.

(** Events of the block that shows the warnings of the store, written
    only when there is a warning. *)
Definition shownWarnings (warnings : list concourse.ConfigWarning) : list (event Body) :=
  match warnings with
  | [] => []
  | _ :: _ => (showWarnings warnings).1
  end.

(** The five ways through the body of [Set] after resolution, each with
    the events it leaves and the way it ends: the fetch fails with an
    error that is not tolerated; the new document does not parse; the
    gate declines; the store answers with an error; the store answers
    and the outcome is reported. *)
Inductive path (atcConfig : ATCConfig Body) (doc : string)
    : list (event Body) * halt -> Prop :=
| fetch_failed e :
    concourse.fetchedErr
      (concourse.PipelineConfig (Team atcConfig) (PipelineName atcConfig)) = Some e ->
    toleratedMessages (Some e) = None ->
    path atcConfig doc ([Fetch (PipelineName atcConfig)], Return (Some e))
| parse_failed errorMessages e :
    toleratedMessages
      (concourse.fetchedErr
         (concourse.PipelineConfig (Team atcConfig) (PipelineName atcConfig)))
      = Some errorMessages ->
    UnmarshalConfig w doc = Err e ->
    path atcConfig doc ([Fetch (PipelineName atcConfig)], Return (Some e))
| bailed_out errorMessages new tg :
    toleratedMessages
      (concourse.fetchedErr
         (concourse.PipelineConfig (Team atcConfig) (PipelineName atcConfig)))
      = Some errorMessages ->
    UnmarshalConfig w doc = Ok new ->
    ApplyConfigInteraction w atcConfig = (tg, inl false) ->
    path atcConfig doc
      (Fetch (PipelineName atcConfig)
         :: (diff (concourse.fetchedConfig
                     (concourse.PipelineConfig (Team atcConfig) (PipelineName atcConfig)))
               new).1
         ++ shownErrors errorMessages ++ tg ++ [Println "bailing out"],
       Return None)
| store_failed errorMessages new tg e :
    toleratedMessages
      (concourse.fetchedErr
         (concourse.PipelineConfig (Team atcConfig) (PipelineName atcConfig)))
      = Some errorMessages ->
    UnmarshalConfig w doc = Ok new ->
    ApplyConfigInteraction w atcConfig = (tg, inl true) ->
    concourse.storedErr
      (concourse.CreateOrUpdatePipelineConfig (Team atcConfig) (PipelineName atcConfig)
         (concourse.fetchedVersion
            (concourse.PipelineConfig (Team atcConfig) (PipelineName atcConfig)))
         doc) = Some e ->
    path atcConfig doc
      (Fetch (PipelineName atcConfig)
         :: (diff (concourse.fetchedConfig
                     (concourse.PipelineConfig (Team atcConfig) (PipelineName atcConfig)))
               new).1
         ++ shownErrors errorMessages ++ tg
         ++ [Store (PipelineName atcConfig)
               (concourse.fetchedVersion
                  (concourse.PipelineConfig (Team atcConfig) (PipelineName atcConfig)))
               doc],
       Return (Some e))
| reported errorMessages new tg :
    toleratedMessages
      (concourse.fetchedErr
         (concourse.PipelineConfig (Team atcConfig) (PipelineName atcConfig)))
      = Some errorMessages ->
    UnmarshalConfig w doc = Ok new ->
    ApplyConfigInteraction w atcConfig = (tg, inl true) ->
    concourse.storedErr
      (concourse.CreateOrUpdatePipelineConfig (Team atcConfig) (PipelineName atcConfig)
         (concourse.fetchedVersion
            (concourse.PipelineConfig (Team atcConfig) (PipelineName atcConfig)))
         doc) = None ->
    path atcConfig doc
      (Fetch (PipelineName atcConfig)
         :: (diff (concourse.fetchedConfig
                     (concourse.PipelineConfig (Team atcConfig) (PipelineName atcConfig)))
               new).1
         ++ shownErrors errorMessages ++ tg
         ++ Store (PipelineName atcConfig)
              (concourse.fetchedVersion
                 (concourse.PipelineConfig (Team atcConfig) (PipelineName atcConfig)))
              doc
         :: shownWarnings
              (concourse.storedWarnings
                 (concourse.CreateOrUpdatePipelineConfig (Team atcConfig)
                    (PipelineName atcConfig)
                    (concourse.fetchedVersion
                       (concourse.PipelineConfig (Team atcConfig)
                          (PipelineName atcConfig)))
                    doc))
         ++ (showHelpfulMessage atcConfig
               (concourse.storedCreated
                  (concourse.CreateOrUpdatePipelineConfig (Team atcConfig)
                     (PipelineName atcConfig)
                     (concourse.fetchedVersion
                        (concourse.PipelineConfig (Team atcConfig)
                           (PipelineName atcConfig)))
                     doc))
               (concourse.storedUpdated
                  (concourse.CreateOrUpdatePipelineConfig (Team atcConfig)
                     (PipelineName atcConfig)
                     (concourse.fetchedVersion
                        (concourse.PipelineConfig (Team atcConfig)
                           (PipelineName atcConfig)))
                     doc))).1,
       match (showHelpfulMessage atcConfig
                (concourse.storedCreated
                   (concourse.CreateOrUpdatePipelineConfig (Team atcConfig)
                      (PipelineName atcConfig)
                      (concourse.fetchedVersion
                         (concourse.PipelineConfig (Team atcConfig)
                            (PipelineName atcConfig)))
                      doc))
                (concourse.storedUpdated
                   (concourse.CreateOrUpdatePipelineConfig (Team atcConfig)
                      (PipelineName atcConfig)
                      (concourse.fetchedVersion
                         (concourse.PipelineConfig (Team atcConfig)
                            (PipelineName atcConfig)))
                      doc))).2 with
       | inl _ => Return None
       | inr h => h
       end).

End Paths.

(* ===================================================================== *)
(** ** Stores that answer with a conflict or with warnings *)
(* ===================================================================== *)

Module scenario.

Definition conflict : concourse.Stored :=
  {| concourse.storedCreated := false;
     concourse.storedUpdated := false;
     concourse.storedWarnings := [];
     concourse.storedErr := Some (GenericError "version conflict") |}.

Definition deprecated : concourse.Stored :=
  {| concourse.storedCreated := false;
     concourse.storedUpdated := true;
     concourse.storedWarnings := [ {| concourse.Message := "jobs.x.y is deprecated" |} ];
     concourse.storedErr := None |}.

Definition team (stored : concourse.Stored) : concourse.Team string := {|
  concourse.Name := "main";
  concourse.PipelineConfig := fun _ =>
    {| concourse.fetchedConfig := demo.existing;
       concourse.fetchedRaw := "resources: [a]";
       concourse.fetchedVersion := "42";
       concourse.fetchedFound := true;
       concourse.fetchedErr := None |};
  concourse.CreateOrUpdatePipelineConfig := fun _ _ _ => stored
|}.

Definition atcConfig (stored : concourse.Stored) (skip : bool) : ATCConfig string := {|
  PipelineName := "p";
  Team := team stored;
  WebRequestGenerator := fun pipeline team_name =>
    "http://ci/teams/" +:+ team_name +:+ "/pipelines/" +:+ pipeline;
  SkipInteraction := skip
|}.

(** The environment of [demo] with a legacy decoder that always fails. *)
Definition world_without_legacy (answer : Result bool) : World string := {|
  ReadFile := ReadFile (demo.world answer);
  UnmarshalStaticVariables := UnmarshalStaticVariables (demo.world answer);
  UnmarshalVariables := fun _ => Err (GenericError "legacy decoder unavailable");
  UnmarshalConfig := UnmarshalConfig (demo.world answer);
  Resolve := Resolve (demo.world answer)
|}.

(** The flag [region=eu] with another legacy value. *)
Definition region_eu_raw : flaghelpers.VariablePairFlag :=
  {| flaghelpers.Name := "region";
     flaghelpers.Value := VString "eu";
     flaghelpers.OldValue := "raw text" |}.

(** Two flags for [region], the later one giving [us]. *)
Definition region_twice : list flaghelpers.VariablePairFlag :=
  [ demo.region_eu;
    {| flaghelpers.Name := "region";
       flaghelpers.Value := VString "us";
       flaghelpers.OldValue := "us" |} ].

End scenario.

(* ===================================================================== *)
(** ** The confirmation gate and the final report *)
(* ===================================================================== *)

Section Gate.

Context {Body : Type} `{!EqDecision Body}.
Context (w : World Body).

(** C10.  [ApplyConfigInteraction] answers [true] with no event at all,
    hence without consulting the prompt, whenever [SkipInteraction] is
    set; when the prompt is consulted and fails, the answer is [false]. *)
Theorem ApplyConfigInteraction_skip_or_error (atcConfig : ATCConfig Body) :
  (SkipInteraction atcConfig = true ->
     ApplyConfigInteraction w atcConfig = ([], inl true))
  /\ (SkipInteraction atcConfig = false ->
      forall e, Resolve w "apply configuration?" = Err e ->
      ApplyConfigInteraction w atcConfig
      = ([Interaction "apply configuration?"], inl false)).
Proof.
  unfold ApplyConfigInteraction. split.
  - intros ->. reflexivity.
  - intros -> e ->. reflexivity.
Qed.

(** C9, as amended.  The report is chosen from the flags in order: with
    [updated] set the workflow reports an update whatever [created] is;
    with only [created] set it reports a creation; with neither it
    panics, and nothing is reported. *)
Theorem showHelpfulMessage_cases (atcConfig : ATCConfig Body) (created : bool) :
  showHelpfulMessage atcConfig created true
  = ([Println "configuration updated"], inl tt)
  /\ (exists rest,
       showHelpfulMessage atcConfig true false
       = (Println "pipeline created!" :: rest, inl tt))
  /\ showHelpfulMessage atcConfig false false
     = ([], inr (Panic "Something really went wrong!")).
Proof.
  split; [reflexivity|]. split; [|reflexivity].
  eexists. reflexivity.
Qed.

End Gate.

(** C10 at a concrete configuration: with the flag set the prompt, which
    would fail, is not consulted; without it the failure declines. *)
Lemma ApplyConfigInteraction_skip_or_error_witness :
  ApplyConfigInteraction (demo.world (Err (GenericError "no terminal")))
    (demo.atcConfig None false true true) = ([], inl true)
  /\ ApplyConfigInteraction (demo.world (Err (GenericError "no terminal")))
       (demo.atcConfig None false true false)
     = ([Interaction "apply configuration?"], inl false).
Proof.
  split.
  - apply (ApplyConfigInteraction_skip_or_error
             (demo.world (Err (GenericError "no terminal")))
             (demo.atcConfig None false true true)).
    reflexivity.
  - apply (ApplyConfigInteraction_skip_or_error
             (demo.world (Err (GenericError "no terminal")))
             (demo.atcConfig None false true false)
           ) with (e := GenericError "no terminal"); reflexivity.
Defined.

(** C9 as stated fails: a store answering with both flags set is reported
    as a plain update and nothing panics; the run of [Set] returns [nil]. *)
Lemma showHelpfulMessage_both_set_reported :
  showHelpfulMessage (demo.atcConfig None true true false) true true
  = ([Println "configuration updated"], inl tt)
  /\ ~ (exists t m,
        showHelpfulMessage (demo.atcConfig None true true false) true true
        = (t, inr (Panic m)))
  /\ Set_ (demo.world (Ok true)) (demo.atcConfig None true true true)
       "plain.yml" [] []
     = ([CurrentEvaluator "jobs: []"; Fetch "p"; Println "resources:";
         Render "resource" (Added (demo.resource "b" "s3"));
         Store "p" "42" "jobs: []"; Println "configuration updated"],
        Return None).
Proof.
  split_and!; [reflexivity| |vm_compute; reflexivity].
  intros (t & m & H). discriminate H.
Qed.

(* ===================================================================== *)
(** ** Precedence of the variable sources *)
(* ===================================================================== *)

Section Sources.

Context {V : Type}.
Implicit Types (files : list (gmap string V)) (k : string).

Lemma lastWith_None files k :
  lastWith files k = None -> forall i F, files !! i = Some F -> F !! k = None.
Proof.
  induction files as [|F0 files IH]; simpl; intros H i F Hi.
  - by rewrite lookup_nil in Hi.
  - destruct (lastWith files k) eqn:E; [discriminate|].
    destruct i as [|i]; simpl in Hi.
    + by inversion Hi; subst.
    + by eapply IH.
Qed.

Lemma lastWith_Some files k v :
  lastWith files k = Some v ->
  exists i F, files !! i = Some F /\ F !! k = Some v
    /\ forall j F', (i < j)%nat -> files !! j = Some F' -> F' !! k = None.
Proof.
  induction files as [|F0 files IH]; simpl; [discriminate|].
  destruct (lastWith files k) as [v'|] eqn:E; intros H.
  - inversion H; subst v'.
    destruct IH as (i & F & Hi & Hk & Hlast); [done|].
    exists (S i), F. split_and!; [done..|].
    intros [|j] F' Hlt Hj; [lia|]. simpl in Hj. eapply Hlast; [|done]. lia.
  - exists 0%nat, F0. split_and!; [done..|].
    intros [|j] F' Hlt Hj; [lia|]. simpl in Hj.
    by eapply lastWith_None.
Qed.

Lemma lastWith_latestFileWins (G : gmap string V) files k :
  latestFileWins G files k
    (match G !! k with Some v => Some v | None => lastWith files k end).
Proof.
  unfold latestFileWins, flagsThenFiles.
  destruct (G !! k) as [v|]; [done|].
  destruct (lastWith files k) as [v|] eqn:E.
  - right. destruct (lastWith_Some _ _ _ E) as (i & F & ? & ? & ?).
    by exists i, F, v.
  - left. split; [done|]. by apply lastWith_None.
Qed.

End Sources.

Lemma traverse_Forall2 {A B : Type} (f : A -> Result B) (l : list A) (k : list B) :
  Forall2 (fun a b => f a = Ok b) l k -> traverse f l = Ok k.
Proof.
  induction 1 as [|a b l k Hab _ IH]; simpl; [done|].
  by rewrite Hab; simpl; rewrite IH.
Qed.

Lemma Forall2_rev {A B : Type} (P : A -> B -> Prop) (l : list A) (k : list B) :
  Forall2 P l k -> Forall2 P (rev l) (rev k).
Proof.
  induction 1; simpl; [constructor|].
  apply Forall2_app; [done|]. by constructor.
Qed.

Lemma NewMultiVars_app (l1 l2 : list template.StaticVariables) (k : string) :
  template.NewMultiVars (l1 ++ l2) k
  = match template.NewMultiVars l1 k with
    | Some v => Some v
    | None => template.NewMultiVars l2 k
    end.
Proof.
  induction l1 as [|F l1 IH]; simpl; [done|].
  by destruct (F !! k).
Qed.

Lemma NewMultiVars_rev (files : list template.StaticVariables) (k : string) :
  template.NewMultiVars (rev files) k = lastWith files k.
Proof.
  induction files as [|F files IH]; simpl; [done|].
  rewrite NewMultiVars_app, IH. simpl.
  destruct (lastWith files k); [done|]. by destruct (F !! k).
Qed.

Section Stores.

Context {Body : Type} (w : World Body).
Import flaghelpers.

Lemma currentVars_decoded paramPayloads variables files :
  Forall2 (fun p F => UnmarshalStaticVariables w p = Ok F) paramPayloads files ->
  currentVars w paramPayloads variables = Ok (flagVars variables :: rev files).
Proof.
  intros H. unfold currentVars.
  by rewrite (traverse_Forall2 _ _ _ (Forall2_rev _ _ _ H)).
Qed.

Lemma mergePayloads_decoded paramPayloads lfiles :
  Forall2 (fun p F => UnmarshalVariables w p = Ok F) paramPayloads lfiles ->
  forall vars, exists merged,
    mergePayloads w vars paramPayloads = Ok merged
    /\ forall k, merged !! k
         = match lastWith lfiles k with
           | Some v => Some v
           | None => vars !! k
           end.
Proof.
  induction 1 as [|p F ps Fs Hp _ IH]; intros vars; simpl.
  - by exists vars.
  - rewrite Hp. simpl.
    destruct (IH (temp.Merge vars F)) as (merged & -> & Hm).
    exists merged. split; [done|]. intros k. rewrite Hm.
    destruct (lastWith Fs k); [done|].
    unfold temp.Merge. rewrite lookup_union. by destruct (F !! k), (vars !! k).
Qed.

(** C1, as amended.  Once the file payloads decode, the lookup that
    evaluation uses gives a key the flag value when the flags have it,
    and otherwise the value of the latest-listed file that has it; so in
    the current namespace and in the legacy one alike. *)
Theorem merged_lookup_latest_file_wins
    (paramPayloads : list string) (variables : list VariablePairFlag)
    (files : list template.StaticVariables) (lfiles : list temp.Variables)
    (k : string) :
  Forall2 (fun p F => UnmarshalStaticVariables w p = Ok F) paramPayloads files ->
  Forall2 (fun p F => UnmarshalVariables w p = Ok F) paramPayloads lfiles ->
  (exists vars,
     currentVars w paramPayloads variables = Ok vars
     /\ latestFileWins (flagVars variables) files k (template.NewMultiVars vars k))
  /\ (exists vars,
       legacyVars w paramPayloads variables = Ok vars
       /\ latestFileWins (oldFlagVars variables) lfiles k (vars !! k)).
Proof.
  intros Hc Hl. split.
  - eexists. split; [by apply currentVars_decoded|].
    simpl. rewrite NewMultiVars_rev.
    pose proof (lastWith_latestFileWins (flagVars variables) files k) as H.
    by destruct (flagVars variables !! k).
  - destruct (mergePayloads_decoded _ _ Hl ∅) as (merged & Hm & Hk).
    unfold legacyVars. rewrite Hm. simpl. eexists. split; [done|].
    unfold temp.Merge. rewrite lookup_union, Hk, lookup_empty.
    pose proof (lastWith_latestFileWins (oldFlagVars variables) lfiles k) as H.
    destruct (oldFlagVars variables !! k); [by destruct (lastWith lfiles k)|].
    by destruct (lastWith lfiles k).
Qed.

End Stores.

(** C1 at the scenario of two files and a flag: the payloads decode and the
    lookup of [env] follows the rule in both namespaces. *)
Lemma merged_lookup_latest_file_wins_witness :
  (exists vars,
     currentVars (demo.world (Ok true)) ["env: staging"; "env: prod, region: us"]
       [demo.region_eu] = Ok vars
     /\ latestFileWins (flagVars [demo.region_eu]) [demo.F1; demo.F2] "env"
          (template.NewMultiVars vars "env"))
  /\ (exists vars,
       legacyVars (demo.world (Ok true)) ["env: staging"; "env: prod, region: us"]
         [demo.region_eu] = Ok vars
       /\ latestFileWins (oldFlagVars [demo.region_eu]) [demo.L1; demo.L2] "env"
            (vars !! "env")).
Proof.
  apply (merged_lookup_latest_file_wins (demo.world (Ok true))
           ["env: staging"; "env: prod, region: us"] [demo.region_eu]
           [demo.F1; demo.F2] [demo.L1; demo.L2] "env").
  - repeat constructor.
  - repeat constructor.
Defined.

(** C1 as stated fails.  File 1 gives [env: staging], file 2, listed after
    it, gives [env: prod] and the flags do not mention [env]: the lookup
    answers [prod] in both namespaces, not the value of the earliest
    file. *)
Lemma merged_lookup_not_earliest_file :
  (exists vars,
     currentVars (demo.world (Ok true)) ["env: staging"; "env: prod, region: us"]
       [demo.region_eu] = Ok vars
     /\ template.NewMultiVars vars "env" = Some (VString "prod")
     /\ ~ earliestFileWins (flagVars [demo.region_eu]) [demo.F1; demo.F2] "env"
          (template.NewMultiVars vars "env"))
  /\ (exists vars,
       legacyVars (demo.world (Ok true)) ["env: staging"; "env: prod, region: us"]
         [demo.region_eu] = Ok vars
       /\ vars !! "env" = Some "prod"
       /\ ~ earliestFileWins (oldFlagVars [demo.region_eu]) [demo.L1; demo.L2] "env"
            (vars !! "env")).
Proof.
  split.
  - exists [flagVars [demo.region_eu]; demo.F2; demo.F1].
    assert (E : template.NewMultiVars [flagVars [demo.region_eu]; demo.F2; demo.F1] "env"
                = Some (VString "prod")) by (vm_compute; reflexivity).
    split_and!; [reflexivity|exact E|].
    rewrite E. unfold earliestFileWins, flagsThenFiles.
    replace (flagVars [demo.region_eu] !! "env") with (@None value)
      by (vm_compute; reflexivity).
    intros [[H _]|(i & F & v & Hi & Hk & Hr & Hb)]; [discriminate|].
    inversion Hr; subst v.
    destruct i as [|[|i]]; simpl in Hi.
    + inversion Hi; subst F. vm_compute in Hk. discriminate.
    + specialize (Hb 0%nat demo.F1 (Nat.lt_0_succ _) eq_refl).
      vm_compute in Hb. discriminate.
    + discriminate.
  - exists (temp.Merge (temp.Merge (temp.Merge ∅ demo.L1) demo.L2)
              (oldFlagVars [demo.region_eu])).
    assert (E : temp.Merge (temp.Merge (temp.Merge ∅ demo.L1) demo.L2)
                  (oldFlagVars [demo.region_eu]) !! "env" = Some "prod")
      by (vm_compute; reflexivity).
    split_and!; [reflexivity|exact E|].
    rewrite E. unfold earliestFileWins, flagsThenFiles.
    replace (oldFlagVars [demo.region_eu] !! "env") with (@None string)
      by (vm_compute; reflexivity).
    intros [[H _]|(i & F & v & Hi & Hk & Hr & Hb)]; [discriminate|].
    inversion Hr; subst v.
    destruct i as [|[|i]]; simpl in Hi.
    + inversion Hi; subst F. vm_compute in Hk. discriminate.
    + specialize (Hb 0%nat demo.L1 (Nat.lt_0_succ _) eq_refl).
      vm_compute in Hb. discriminate.
    + discriminate.
Qed.

(* ===================================================================== *)
(** ** Evaluation of a document *)
(* ===================================================================== *)

(** Only complete current-syntax markers count as placeholders. *)
Example placeholders_demo :
  template.placeholders "a: ((x))-{{y}} ((zz)) ((" = ["x"; "zz"].
Proof. reflexivity. Qed.

(** A legacy marker is detected wherever it stands. *)
Example Present_demo :
  temp.Present "env: {{env}} region: ((region))" = true
  /\ temp.Present "env: ((env))" = false.
Proof. split; reflexivity. Qed.

Section Scanning.

Import placeholder.
Context (o c : ascii).

Lemma scan_cons (a : ascii) (s : string) :
  scan o c 0 (String a s)
  = match marker o c (String a s) with
    | Some n => Hole n :: scan o c (String.length n + 3) s
    | None => Chr a :: scan o c 0 s
    end.
Proof. reflexivity. Qed.

(** A document without placeholders is made of its characters only, and
    substitution gives it back. *)
Lemma fill_without_holes (text : string -> option string) (s : string) :
  holes (scan o c 0 s) = [] -> fill o c text (scan o c 0 s) = s.
Proof.
  induction s as [|a s IH]; [done|].
  rewrite scan_cons. destruct (marker o c (String a s)); [discriminate|].
  simpl. intros H. by rewrite IH.
Qed.

End Scanning.

(** Membership of an event in an explicit trace. *)
Ltac in_trace :=
  rewrite ?elem_of_app, ?elem_of_cons, ?elem_of_nil;
  intuition (subst; try discriminate; try congruence; auto).

Section Evaluation.

Context {Body : Type} `{!EqDecision Body}.
Context (w : World Body).
Import flaghelpers.

Lemma Evaluate_strict_missing (tpl : string) (vars : string -> option value) :
  (exists n, n ∈ template.placeholders tpl /\ vars n = None) ->
  exists names,
    template.Evaluate tpl vars {| template.ExpectAllKeys := true |}
    = Err (MissingVariableError names)
    /\ forall n, n ∈ names <-> n ∈ template.placeholders tpl /\ vars n = None.
Proof.
  intros (n0 & Hin & Hnone).
  assert (Hchar : forall n,
    n ∈ List.filter (template.is_missing vars) (template.placeholders tpl)
    <-> n ∈ template.placeholders tpl /\ vars n = None).
  { intros n. rewrite !list_elem_of_In, filter_In. unfold template.is_missing.
    destruct (vars n); intuition congruence. }
  exists (List.filter (template.is_missing vars) (template.placeholders tpl)).
  split; [|done].
  unfold template.Evaluate, template.placeholders in *. simpl.
  destruct (List.filter _ _) as [|m ms] eqn:E; [|done].
  exfalso. apply (not_elem_of_nil n0). by apply Hchar.
Qed.

Lemma Evaluate_without_placeholders (tpl : string) (vars : string -> option value)
    (opts : template.EvaluateOpts) :
  template.placeholders tpl = [] -> template.Evaluate tpl vars opts = Ok tpl.
Proof.
  unfold template.placeholders, template.Evaluate. intros H. rewrite H. simpl.
  rewrite fill_without_holes by done. by destruct (template.ExpectAllKeys opts).
Qed.

Lemma readPayloads_read (templateVariablesFiles paramPayloads : list string) :
  Forall2 (fun path p => ReadFile w path = Ok p) templateVariablesFiles paramPayloads ->
  readPayloads w templateVariablesFiles = ([], inl paramPayloads).
Proof.
  induction 1 as [|path p paths ps Hp _ IH]; [done|].
  simpl. rewrite Hp, IH. reflexivity.
Qed.

(** C3.  Whenever the merged store lacks the name of some current-syntax
    placeholder of the document, strict evaluation yields no document:
    it fails with a [MissingVariableError] that names exactly the
    placeholders without an entry, all of them. *)
Theorem resolveTemplates_names_every_missing
    (configPayload : string) (paramPayloads : list string)
    (variables : list VariablePairFlag) (vars : list template.StaticVariables) :
  currentVars w paramPayloads variables = Ok vars ->
  (exists n, n ∈ template.placeholders configPayload
             /\ template.NewMultiVars vars n = None) ->
  exists names,
    resolveTemplates w configPayload paramPayloads variables
    = Err (MissingVariableError names)
    /\ forall n, n ∈ names
         <-> n ∈ template.placeholders configPayload
             /\ template.NewMultiVars vars n = None.
Proof.
  intros Hvars Hmiss. unfold resolveTemplates. rewrite Hvars. simpl.
  by apply Evaluate_strict_missing.
Qed.

(** C6.  A document without any placeholder, resolved against flags and
    variable files that decode, comes back unchanged: from
    [resolveTemplates], and from [newConfig] as a whole, which runs the
    current evaluator only. *)
Theorem resolution_without_placeholders_is_identity
    (atcConfig : ATCConfig Body) (configPath : string)
    (templateVariablesFiles : list string) (templateVariables : list VariablePairFlag)
    (doc : string) (paramPayloads : list string)
    (vars : list template.StaticVariables) :
  ReadFile w configPath = Ok doc ->
  Forall2 (fun path p => ReadFile w path = Ok p) templateVariablesFiles paramPayloads ->
  currentVars w paramPayloads templateVariables = Ok vars ->
  template.placeholders doc = [] ->
  temp.Present doc = false ->
  resolveTemplates w doc paramPayloads templateVariables = Ok doc
  /\ newConfig w atcConfig configPath templateVariablesFiles templateVariables
     = ([CurrentEvaluator doc], inl doc).
Proof.
  intros Hdoc Hread Hvars Hnone Hold.
  assert (Hres : resolveTemplates w doc paramPayloads templateVariables = Ok doc).
  { unfold resolveTemplates. rewrite Hvars. simpl.
    by apply Evaluate_without_placeholders. }
  split; [done|].
  unfold newConfig. rewrite Hdoc. simpl.
  rewrite (readPayloads_read _ _ Hread). simpl.
  rewrite Hold. simpl. rewrite Hres. reflexivity.
Qed.

(** C2.  With the files read, the legacy evaluator is started exactly
    when the legacy marker is present in the document, and on that
    document; the current evaluator is then started on what the legacy
    one produced; without the marker the current evaluator alone runs,
    on the original document. *)
Theorem newConfig_evaluators
    (atcConfig : ATCConfig Body) (configPath : string)
    (templateVariablesFiles : list string) (templateVariables : list VariablePairFlag)
    (doc : string) (paramPayloads : list string) :
  ReadFile w configPath = Ok doc ->
  Forall2 (fun path p => ReadFile w path = Ok p) templateVariablesFiles paramPayloads ->
  (forall d,
     LegacyEvaluator d
       ∈ (newConfig w atcConfig configPath templateVariablesFiles templateVariables).1
     <-> temp.Present doc = true /\ d = doc)
  /\ (temp.Present doc = true ->
      forall doc',
        resolveDeprecatedTemplateStyle w doc paramPayloads templateVariables = Ok doc' ->
        newConfig w atcConfig configPath templateVariablesFiles templateVariables
        = ([LegacyEvaluator doc; CurrentEvaluator doc'],
           (orFail (Body := Body) "could not resolve template vars"
              (resolveTemplates w doc' paramPayloads templateVariables)).2))
  /\ (temp.Present doc = false ->
      newConfig w atcConfig configPath templateVariablesFiles templateVariables
      = ([CurrentEvaluator doc],
         (orFail (Body := Body) "could not resolve template vars"
            (resolveTemplates w doc paramPayloads templateVariables)).2)).
Proof.
  intros Hdoc Hread.
  unfold newConfig. rewrite Hdoc. simpl.
  rewrite (readPayloads_read _ _ Hread). simpl.
  split_and!.
  - intros d. destruct (temp.Present doc); simpl.
    + destruct (resolveDeprecatedTemplateStyle w doc paramPayloads templateVariables)
        as [doc'|e]; simpl.
      * destruct (resolveTemplates w doc' paramPayloads templateVariables); simpl;
          in_trace.
      * in_trace.
    + destruct (resolveTemplates w doc paramPayloads templateVariables); simpl;
        in_trace.
  - intros Hold doc' Hleg. rewrite Hold. simpl. rewrite Hleg. simpl.
    by destruct (resolveTemplates w doc' paramPayloads templateVariables).
  - intros Hold. rewrite Hold. simpl.
    by destruct (resolveTemplates w doc paramPayloads templateVariables).
Qed.

End Evaluation.

(** C3 at placeholders [a], [b], [c] with a store holding [a] and [b]
    only. *)
Lemma resolveTemplates_names_every_missing_witness :
  exists names,
    resolveTemplates (demo.world (Ok true)) "x: ((a)) y: ((b)) z: ((c))" [] demo.a_b
    = Err (MissingVariableError names)
    /\ forall n, n ∈ names
         <-> n ∈ template.placeholders "x: ((a)) y: ((b)) z: ((c))"
             /\ template.NewMultiVars [flagVars demo.a_b] n = None.
Proof.
  apply (resolveTemplates_names_every_missing (demo.world (Ok true))
           "x: ((a)) y: ((b)) z: ((c))" [] demo.a_b [flagVars demo.a_b]).
  - reflexivity.
  - exists "c". split.
    + vm_compute. do 2 right. left.
    + vm_compute. reflexivity.
Defined.

(** C6 at a pipeline without placeholders, two variable files and a
    flag. *)
Lemma resolution_without_placeholders_is_identity_witness :
  resolveTemplates (demo.world (Ok true)) "jobs: []"
    ["env: staging"; "env: prod, region: us"] [demo.region_eu] = Ok "jobs: []"
  /\ newConfig (demo.world (Ok true)) (demo.atcConfig None false true false)
       "plain.yml" ["vars1.yml"; "vars2.yml"] [demo.region_eu]
     = ([CurrentEvaluator "jobs: []"], inl "jobs: []").
Proof.
  apply (resolution_without_placeholders_is_identity (demo.world (Ok true))
           (demo.atcConfig None false true false) "plain.yml"
           ["vars1.yml"; "vars2.yml"] [demo.region_eu] "jobs: []"
           ["env: staging"; "env: prod, region: us"]
           [flagVars [demo.region_eu]; demo.F2; demo.F1]).
  - reflexivity.
  - repeat constructor.
  - reflexivity.
  - reflexivity.
  - reflexivity.
Defined.

(** C2 at a pipeline mixing both syntaxes: the legacy evaluator runs on
    the file as read, the current one on its output. *)
Lemma newConfig_evaluators_witness :
  LegacyEvaluator "env: {{env}} region: ((region))"
    ∈ (newConfig (demo.world (Ok true)) (demo.atcConfig None false true false)
         "old.yml" ["vars1.yml"; "vars2.yml"] [demo.region_eu]).1
  /\ newConfig (demo.world (Ok true)) (demo.atcConfig None false true false)
       "old.yml" ["vars1.yml"; "vars2.yml"] [demo.region_eu]
     = ([LegacyEvaluator "env: {{env}} region: ((region))";
         CurrentEvaluator "env: prod region: ((region))"],
        inl "env: prod region: eu").
Proof.
  destruct (newConfig_evaluators (demo.world (Ok true))
              (demo.atcConfig None false true false) "old.yml"
              ["vars1.yml"; "vars2.yml"] [demo.region_eu]
              "env: {{env}} region: ((region))"
              ["env: staging"; "env: prod, region: us"]
              eq_refl ltac:(repeat constructor)) as (Hlegacy & Hboth & _).
  split.
  - apply Hlegacy. split; reflexivity.
  - exact (Hboth eq_refl "env: prod region: ((region))" eq_refl).
Defined.

(* ===================================================================== *)
(** ** The difference of two indices *)
(* ===================================================================== *)

Lemma NoDup_omap_inj {A B : Type} (f : A -> option B) (l : list A) :
  NoDup l ->
  (forall x y z, x ∈ l -> y ∈ l -> f x = Some z -> f y = Some z -> x = y) ->
  NoDup (omap f l).
Proof.
  induction 1 as [|x l Hx Hl IH]; intros Hinj; simpl; [constructor|].
  assert (IH' : NoDup (omap f l)).
  { apply IH. intros a b z Ha Hb. apply Hinj; by right. }
  destruct (f x) as [z|] eqn:Hfx; [|done].
  constructor; [|done].
  intros Hz. apply list_elem_of_omap in Hz as (y & Hy & Hfy).
  apply Hx. rewrite (Hinj x y z); [done|by left|by right|done..].
Qed.

Lemma omap_all_None {A B : Type} (f : A -> option B) (l : list A) :
  (forall x, x ∈ l -> f x = None) -> omap f l = [].
Proof.
  induction l as [|x l IH]; intros H; simpl; [done|].
  rewrite (H x) by by left. apply IH. intros y Hy. apply H. by right.
Qed.

Section Difference.

Context {Body : Type} `{!EqDecision Body}.
Implicit Types (existingIndex newIndex : gmap string Body) (r : DiffRecord Body).

Lemma elem_of_removed existingIndex newIndex r :
  r ∈ removed existingIndex newIndex
  <-> exists n b, r = Removed {| name := n; body := b |}
        /\ existingIndex !! n = Some b /\ newIndex !! n = None.
Proof.
  unfold removed. rewrite list_elem_of_omap. split.
  - intros ([n b] & Hin & Hf). apply elem_of_map_to_list in Hin.
    destruct (newIndex !! n) eqn:E; [discriminate|].
    inversion Hf. by exists n, b.
  - intros (n & b & -> & Hx & Hy). exists (n, b).
    split; [by apply elem_of_map_to_list|]. by rewrite Hy.
Qed.

Lemma elem_of_added existingIndex newIndex r :
  r ∈ added existingIndex newIndex
  <-> exists n b, r = Added {| name := n; body := b |}
        /\ newIndex !! n = Some b /\ existingIndex !! n = None.
Proof.
  unfold added. rewrite list_elem_of_omap. split.
  - intros ([n b] & Hin & Hf). apply elem_of_map_to_list in Hin.
    destruct (existingIndex !! n) eqn:E; [discriminate|].
    inversion Hf. by exists n, b.
  - intros (n & b & -> & Hy & Hx). exists (n, b).
    split; [by apply elem_of_map_to_list|]. by rewrite Hx.
Qed.

Lemma elem_of_changed existingIndex newIndex r :
  r ∈ changed existingIndex newIndex
  <-> exists n b b', r = Changed n b b'
        /\ existingIndex !! n = Some b /\ newIndex !! n = Some b' /\ b <> b'.
Proof.
  unfold changed. rewrite list_elem_of_omap. split.
  - intros ([n b] & Hin & Hf). apply elem_of_map_to_list in Hin.
    destruct (newIndex !! n) as [b'|] eqn:E; [|discriminate].
    destruct (decide (b = b')); [discriminate|].
    inversion Hf. by exists n, b, b'.
  - intros (n & b & b' & -> & Hx & Hy & Hne). exists (n, b).
    split; [by apply elem_of_map_to_list|]. rewrite Hy.
    by destruct (decide (b = b')).
Qed.

Lemma NoDup_removed existingIndex newIndex : NoDup (removed existingIndex newIndex).
Proof.
  apply NoDup_omap_inj; [apply NoDup_map_to_list|].
  intros [n b] [n' b'] z _ _ H H'.
  destruct (newIndex !! n), (newIndex !! n'); try discriminate. congruence.
Qed.

Lemma NoDup_added existingIndex newIndex : NoDup (added existingIndex newIndex).
Proof.
  apply NoDup_omap_inj; [apply NoDup_map_to_list|].
  intros [n b] [n' b'] z _ _ H H'.
  destruct (existingIndex !! n), (existingIndex !! n'); try discriminate. congruence.
Qed.

Lemma NoDup_changed existingIndex newIndex : NoDup (changed existingIndex newIndex).
Proof.
  apply NoDup_omap_inj; [apply NoDup_map_to_list|].
  intros [n b] [n' b'] z _ _ H H'.
  destruct (newIndex !! n) as [c|], (newIndex !! n') as [c'|]; try discriminate.
  destruct (decide (b = c)), (decide (b' = c')); try discriminate. congruence.
Qed.

(** C4.  The difference of two indices holds no record twice, and its
    records are exactly: [Removed] for each name of the existing index
    that the new one lacks, [Added] for each name of the new index that
    the existing one lacks, and [Changed] with both bodies for each name
    of both whose bodies differ.  A name of both with equal bodies
    therefore has no record.  [diffIndices] is a total function. *)
Theorem diffIndices_exact existingIndex newIndex :
  NoDup (diffIndices existingIndex newIndex)
  /\ forall r,
      r ∈ diffIndices existingIndex newIndex
      <-> (exists n b, r = Removed {| name := n; body := b |}
             /\ existingIndex !! n = Some b /\ newIndex !! n = None)
          \/ (exists n b, r = Added {| name := n; body := b |}
                /\ newIndex !! n = Some b /\ existingIndex !! n = None)
          \/ (exists n b b', r = Changed n b b'
                /\ existingIndex !! n = Some b /\ newIndex !! n = Some b'
                /\ b <> b').
Proof.
  unfold diffIndices. split.
  - apply NoDup_app. split_and!; [apply NoDup_removed| |].
    + intros r Hr Hr'. apply elem_of_removed in Hr as (n & b & -> & _).
      apply elem_of_app in Hr' as [H|H].
      * apply elem_of_added in H as (? & ? & ? & _). discriminate.
      * apply elem_of_changed in H as (? & ? & ? & ? & _). discriminate.
    + apply NoDup_app. split_and!; [apply NoDup_added| |apply NoDup_changed].
      intros r Hr Hr'. apply elem_of_added in Hr as (n & b & -> & _).
      apply elem_of_changed in Hr' as (? & ? & ? & ? & _). discriminate.
  - intros r.
    by rewrite !elem_of_app, elem_of_removed, elem_of_added, elem_of_changed.
Qed.

Lemma diffIndices_same (X : gmap string Body) : diffIndices X X = [].
Proof.
  unfold diffIndices, removed, added, changed.
  rewrite !omap_all_None; [done|..];
    intros [n b] Hin; apply elem_of_map_to_list in Hin; rewrite Hin; [|done..].
  by destruct (decide (b = b)).
Qed.

(** C5.  An index compared with itself has no difference, and a
    configuration compared with itself makes [diff] print nothing, for
    none of the four collections. *)
Theorem diff_of_identical_is_empty (X : gmap string Body) (config : Config Body) :
  diffIndices X X = [] /\ diff config config = ([], inl tt).
Proof.
  split; [apply diffIndices_same|].
  unfold diff, GroupIndex, ResourceIndex, ResourceTypeIndex, JobIndex.
  by rewrite !diffIndices_same.
Qed.

End Difference.

(** The single-entity cases of the difference. *)
Example diffIndices_removed_only :
  diffIndices (NamedEntityIndex [demo.resource "r1" "B1"]) (NamedEntityIndex [])
  = [Removed (demo.resource "r1" "B1")].
Proof. vm_compute. reflexivity. Qed.

Example diffIndices_added_only :
  diffIndices (NamedEntityIndex []) (NamedEntityIndex [demo.resource "r2" "B2"])
  = [Added (demo.resource "r2" "B2")].
Proof. vm_compute. reflexivity. Qed.

Example diffIndices_changed_only :
  diffIndices (NamedEntityIndex [demo.resource "r1" "B1"])
              (NamedEntityIndex [demo.resource "r1" "B2"])
  = [Changed "r1" "B1" "B2"].
Proof. vm_compute. reflexivity. Qed.

(* ===================================================================== *)
(** ** The apply workflow *)
(* ===================================================================== *)

Section Traces.

Context {Body : Type}.
Implicit Types (t : list (event Body)) (e : event Body).

Lemma each_emit {A : Type} (g : A -> event Body) (l : list A) :
  each (fun a => emit (g a)) l = (g <$> l, inl tt).
Proof.
  induction l as [|a l IH]; [done|]. simpl. by rewrite IH.
Qed.

Lemma quiet_app t1 t2 : quiet t1 -> quiet t2 -> quiet (t1 ++ t2).
Proof. apply Forall_app_2. Qed.

Lemma quiet_fmap {A : Type} (g : A -> event Body) (l : list A) :
  (forall a, isStore (g a) = false /\ isInteraction (g a) = false) ->
  quiet (g <$> l).
Proof. intros H. apply Forall_fmap, Forall_forall. intros a _. apply H. Qed.

Lemma quiet_elem t e : quiet t -> e ∈ t -> isStore e = false /\ isInteraction e = false.
Proof. intros H Hin. unfold quiet in H. rewrite Forall_forall in H. by apply H. Qed.

(** The first store event of a trace is where a quiet prefix ends. *)
Lemma split_at_store (A B pre post : list (event Body)) e e' :
  isStore e = true -> isStore e' = true ->
  Forall (fun x => isStore x = false) A ->
  Forall (fun x => isStore x = false) B ->
  pre ++ e' :: post = A ++ e :: B ->
  pre = A /\ e' = e /\ post = B.
Proof.
  intros He He' HA HB. revert pre.
  induction HA as [|a A Ha _ IH]; intros [|x pre] Heq; simpl in Heq.
  - by inversion Heq.
  - inversion Heq; subst. exfalso.
    assert (Hin : e' ∈ pre ++ e' :: post) by (apply elem_of_app; right; by left).
    rewrite Forall_forall in HB. specialize (HB _ Hin). congruence.
  - inversion Heq; subst. congruence.
  - inversion Heq; subst. destruct (IH pre) as (-> & -> & ->); done.
Qed.

End Traces.

Section Workflow.

Context {Body : Type} `{!EqDecision Body}.
Context (w : World Body).
Import flaghelpers.

Ltac quiet_trace :=
  repeat first
    [ apply Forall_nil_2
    | apply Forall_cons_2; [split; reflexivity|]
    | apply quiet_app
    | apply quiet_fmap; intros; split; reflexivity
    | assumption ].

Lemma bind_mret {A B : Type} (a : A) (f : A -> Cmd Body B) : mret a ≫= f = f a.
Proof. unfold mbind, mret, Cmd_bind, Cmd_ret. by destruct (f a). Qed.

Lemma bind_emit {B : Type} (e : event Body) (f : unit -> Cmd Body B) :
  emit e ≫= f = let '(t, r) := f tt in (e :: t, r).
Proof. reflexivity. Qed.

Lemma renderDiffs_runs (header label : string) (diffs : list (DiffRecord Body)) :
  exists t, renderDiffs header label diffs = (t, inl tt) /\ quiet t.
Proof.
  destruct diffs as [|d diffs]; [exists []; split; [reflexivity|quiet_trace]|].
  unfold renderDiffs. rewrite each_emit. eexists. split; [reflexivity|].
  unfold quiet. quiet_trace.
Qed.

Lemma diff_runs (existingConfig new : Config Body) :
  exists t, diff existingConfig new = (t, inl tt) /\ quiet t.
Proof.
  unfold diff.
  destruct (renderDiffs_runs "groups:" "group"
    (diffIndices (GroupIndex (Groups existingConfig)) (GroupIndex (Groups new))))
    as (t1 & -> & Q1).
  destruct (renderDiffs_runs "resources:" "resource"
    (diffIndices (ResourceIndex (Resources existingConfig))
       (ResourceIndex (Resources new)))) as (t2 & -> & Q2).
  destruct (renderDiffs_runs "resource types:" "resource type"
    (diffIndices (ResourceTypeIndex (ResourceTypes existingConfig))
       (ResourceTypeIndex (ResourceTypes new)))) as (t3 & -> & Q3).
  destruct (renderDiffs_runs "jobs:" "job"
    (diffIndices (JobIndex (Jobs existingConfig)) (JobIndex (Jobs new))))
    as (t4 & -> & Q4).
  eexists. split; [reflexivity|]. simpl. quiet_trace.
Qed.

Lemma showPipelineConfigErrors_runs (errorMessages : list string) :
  showPipelineConfigErrors (Body := Body) errorMessages
  = (Errln "" :: PrintWarningHeader :: Errln "Error loading existing config:"
       :: messageLines errorMessages ++ [Errln ""], inl tt).
Proof. unfold showPipelineConfigErrors. by rewrite each_emit. Qed.

Lemma showPipelineConfigErrors_quiet (errorMessages : list string) :
  quiet (showPipelineConfigErrors (Body := Body) errorMessages).1.
Proof.
  rewrite showPipelineConfigErrors_runs. simpl. unfold quiet, messageLines.
  quiet_trace.
Qed.

Lemma showWarnings_runs (warnings : list concourse.ConfigWarning) :
  exists t, showWarnings (Body := Body) warnings = (t, inl tt) /\ quiet t.
Proof.
  unfold showWarnings. rewrite each_emit. eexists. split; [reflexivity|].
  simpl. unfold quiet. quiet_trace.
Qed.

Lemma showHelpfulMessage_runs (atcConfig : ATCConfig Body) (created updated : bool) :
  exists t r, showHelpfulMessage atcConfig created updated = (t, r) /\ quiet t.
Proof.
  destruct updated, created; eexists _, _; (split; [reflexivity|]);
    unfold quiet; quiet_trace.
Qed.

Lemma ApplyConfigInteraction_runs (atcConfig : ATCConfig Body) :
  exists tg b,
    ApplyConfigInteraction w atcConfig = (tg, inl b)
    /\ Forall (fun x => isStore x = false) tg.
Proof.
  unfold ApplyConfigInteraction.
  destruct (SkipInteraction atcConfig); [by exists [], true|].
  simpl. destruct (Resolve w "apply configuration?") as [b|e]; simpl.
  - exists [Interaction "apply configuration?"], b. by repeat constructor.
  - exists [Interaction "apply configuration?"], false. by repeat constructor.
Qed.

Lemma readPayloads_silent (templateVariablesFiles : list string) :
  (readPayloads w templateVariablesFiles).1 = [].
Proof.
  induction templateVariablesFiles as [|path rest IH]; [done|].
  simpl. destruct (ReadFile w path); [|done]. simpl.
  destruct (readPayloads w rest) as [t [ps|h]]; simpl in *; by subst.
Qed.

Lemma newConfig_quiet (atcConfig : ATCConfig Body) (configPath : string)
    (templateVariablesFiles : list string) (templateVariables : list VariablePairFlag) :
  quiet (newConfig w atcConfig configPath templateVariablesFiles templateVariables).1.
Proof.
  unfold newConfig. destruct (ReadFile w configPath) as [doc|e]; [|unfold quiet; quiet_trace].
  simpl. pose proof (readPayloads_silent templateVariablesFiles) as Hs.
  destruct (readPayloads w templateVariablesFiles) as [t [ps|h]]; simpl in *; subst;
    [|unfold quiet; quiet_trace].
  destruct (temp.Present doc); simpl.
  - destruct (resolveDeprecatedTemplateStyle w doc ps templateVariables) as [doc'|e];
      simpl; [|unfold quiet; quiet_trace].
    destruct (resolveTemplates w doc' ps templateVariables); unfold quiet; quiet_trace.
  - destruct (resolveTemplates w doc ps templateVariables); unfold quiet; quiet_trace.
Qed.

(** What follows a call to the store never hands a value on: it returns
    the store's error, or reports and returns, or panics. *)
Lemma afterStore_runs (atcConfig : ATCConfig Body) (stored : concourse.Stored) :
  exists ta h,
    match concourse.storedErr stored with
    | Some err => stop (A := unit) (Return (Some err))
    | None =>
        _ ← match concourse.storedWarnings stored with
            | [] => mret tt
            | _ :: _ => showWarnings (Body := Body) (concourse.storedWarnings stored)
            end;
        _ ← showHelpfulMessage atcConfig
              (concourse.storedCreated stored) (concourse.storedUpdated stored);
        stop (A := unit) (Return None)
    end = (ta, inr h) /\ quiet ta.
Proof.
  destruct (concourse.storedErr stored) as [err|].
  { eexists [], _. split; [reflexivity|quiet_trace]. }
  assert (exists tw, match concourse.storedWarnings stored with
            | [] => mret tt
            | _ :: _ => showWarnings (Body := Body) (concourse.storedWarnings stored)
            end = (tw, inl tt) /\ quiet tw) as (tw & -> & Qw).
  { destruct (concourse.storedWarnings stored) as [|c cs];
      [exists []; split; [done|quiet_trace]|].
    apply showWarnings_runs. }
  destruct (showHelpfulMessage_runs atcConfig
              (concourse.storedCreated stored) (concourse.storedUpdated stored))
    as (tm & [[]|hm] & -> & Qm); simpl;
    eexists _, _; (split; [reflexivity|]); rewrite ?app_nil_r; quiet_trace.
Qed.

Lemma setResolved_layout (atcConfig : ATCConfig Body) (doc : string) :
  layout w atcConfig doc (setResolved w atcConfig doc).
Proof.
  unfold setResolved.
  set (fetched := concourse.PipelineConfig (Team atcConfig) (PipelineName atcConfig)).
  set (stored := concourse.CreateOrUpdatePipelineConfig _ _ _ _).
  assert (Hmain : forall errorMessages new,
    layout w atcConfig doc
      (let '(t', r) :=
         (_ ← diff (concourse.fetchedConfig fetched) new;
          _ ← match errorMessages with
              | [] => mret tt
              | _ :: _ => showPipelineConfigErrors errorMessages
              end;
          confirmed ← ApplyConfigInteraction w atcConfig;
          if negb confirmed then
            _ ← emit (Println "bailing out");
            stop (Return None)
          else
            _ ← emit (Store (PipelineName atcConfig)
                        (concourse.fetchedVersion fetched) doc);
            match concourse.storedErr stored with
            | Some err => stop (Return (Some err))
            | None =>
                _ ← match concourse.storedWarnings stored with
                    | [] => mret tt
                    | _ :: _ => showWarnings (concourse.storedWarnings stored)
                    end;
                _ ← showHelpfulMessage atcConfig
                      (concourse.storedCreated stored) (concourse.storedUpdated stored);
                stop (Return None)
            end) in
       (Fetch (PipelineName atcConfig) :: t', r))).
  { intros errorMessages new.
    destruct (diff_runs (concourse.fetchedConfig fetched) new) as (td & -> & Qd).
    assert (exists ts, match errorMessages with
              | [] => mret tt
              | _ :: _ => showPipelineConfigErrors (Body := Body) errorMessages
              end = (ts, inl tt) /\ quiet ts) as (ts & -> & Qs).
    { destruct errorMessages as [|m ms]; [exists []; split; [done|quiet_trace]|].
      eexists. split; [apply showPipelineConfigErrors_runs|].
      pose proof (showPipelineConfigErrors_quiet (m :: ms)) as H.
      by rewrite showPipelineConfigErrors_runs in H. }
    destruct (ApplyConfigInteraction_runs atcConfig) as (tg & b & Eg & Sg).
    rewrite Eg. destruct b; simpl.
    - destruct (afterStore_runs atcConfig stored) as (ta & h & -> & Qa).
      rewrite (app_assoc td ts).
      apply (accepted w atcConfig doc (Fetch (PipelineName atcConfig) :: td ++ ts) tg ta h);
        [done| |done].
      unfold quiet. quiet_trace.
    - rewrite (app_assoc td ts).
      apply (declined w atcConfig doc (Fetch (PipelineName atcConfig) :: td ++ ts) tg);
        [done|].
      unfold quiet. quiet_trace. }
  rewrite bind_emit. cbv beta.
  destruct (concourse.fetchedErr fetched) as [[msgs|p|ns|m]|];
    try (apply (stopped_early w atcConfig doc [Fetch (PipelineName atcConfig)]);
         unfold quiet; quiet_trace).
  - rewrite bind_mret.
    destruct (UnmarshalConfig w doc) as [new|e].
    + rewrite bind_mret. exact (Hmain msgs new).
    + apply (stopped_early w atcConfig doc [Fetch (PipelineName atcConfig)]).
      unfold quiet. quiet_trace.
  - rewrite bind_mret.
    destruct (UnmarshalConfig w doc) as [new|e].
    + rewrite bind_mret. exact (Hmain [] new).
    + apply (stopped_early w atcConfig doc [Fetch (PipelineName atcConfig)]).
      unfold quiet. quiet_trace.
Qed.

End Workflow.

Section Apply.

Context {Body : Type} `{!EqDecision Body}.
Context (w : World Body).
Import flaghelpers.

Implicit Types (t pre post : list (event Body)).

Lemma quiet_nostore t : quiet t -> Forall (fun x => isStore x = false) t.
Proof. intros H. eapply Forall_impl; [exact H|]. by intros x [? _]. Qed.

Lemma nostore_filter t :
  Forall (fun x => isStore x = false) t -> List.filter isStore t = [].
Proof. induction 1 as [|x t Hx _ IH]; [done|]. simpl. by rewrite Hx. Qed.

Lemma nostore_not_in t p v d :
  Forall (fun x => isStore x = false) t -> Store p v d ∉ t.
Proof.
  intros H Hin. rewrite Forall_forall in H. by specialize (H _ Hin).
Qed.

Lemma nostore_no_split t pre post p v d :
  Forall (fun x => isStore x = false) t -> t <> pre ++ Store p v d :: post.
Proof.
  intros H ->. eapply nostore_not_in; [exact H|].
  apply elem_of_app. right. by left.
Qed.

Lemma quiet_not_asked t q : quiet t -> Interaction q ∉ t.
Proof. intros H Hin. by destruct (quiet_elem _ _ H Hin). Qed.

(** C8.  In every run of [Set] the store is written at most once; a
    write comes right after a complete run of the confirmation gate that
    answered [true], and carries the pipeline name, the version fetched
    with the existing configuration and the resolved document; when the
    gate answers [false] nothing is written, and a run in which the
    prompt was consulted returns [nil]. *)
Theorem Set_stores_once_after_confirmation
    (atcConfig : ATCConfig Body) (configPath : string)
    (templateVariables : list VariablePairFlag)
    (templateVariablesFiles : list string) :
  length (List.filter isStore
            (Set_ w atcConfig configPath templateVariables templateVariablesFiles).1)
    <= 1
  /\ (forall pre p v d post,
       (Set_ w atcConfig configPath templateVariables templateVariablesFiles).1
         = pre ++ Store p v d :: post ->
       exists t tg,
         pre = t ++ tg
         /\ ApplyConfigInteraction w atcConfig = (tg, inl true)
         /\ p = PipelineName atcConfig
         /\ v = concourse.fetchedVersion
                  (concourse.PipelineConfig (Team atcConfig) (PipelineName atcConfig))
         /\ (newConfig w atcConfig configPath templateVariablesFiles
               templateVariables).2 = inl d)
  /\ (forall tg,
       ApplyConfigInteraction w atcConfig = (tg, inl false) ->
       (forall p v d,
          Store p v d
            ∉ (Set_ w atcConfig configPath templateVariables templateVariablesFiles).1)
       /\ (Interaction "apply configuration?"
             ∈ (Set_ w atcConfig configPath templateVariables templateVariablesFiles).1 ->
           (Set_ w atcConfig configPath templateVariables templateVariablesFiles).2
           = Return None)).
Proof.
  unfold Set_.
  pose proof (newConfig_quiet w atcConfig configPath templateVariablesFiles
                templateVariables) as Q0.
  destruct (newConfig w atcConfig configPath templateVariablesFiles templateVariables)
    as [t0 [doc|h0]]; simpl in Q0.
  2: { simpl. pose proof (quiet_nostore _ Q0) as N0. split_and!.
       - rewrite nostore_filter by done. simpl. lia.
       - intros pre p v d post E. by destruct (nostore_no_split _ _ _ _ _ _ N0 E).
       - intros tg _. split; [intros p v d; by apply nostore_not_in|].
         intros Hin. by destruct (quiet_not_asked _ _ Q0 Hin). }
  pose proof (setResolved_layout w atcConfig doc) as L.
  unfold mbind, Cmd_bind.
  destruct (setResolved w atcConfig doc) as [t1 r1].
  inversion L as [t e Qt|t tg Eg Qt|t tg t' h Eg Qt Qt']; subst; simpl.
  - assert (Q : quiet (t0 ++ t1)) by by apply quiet_app.
    pose proof (quiet_nostore _ Q) as N. split_and!.
    + rewrite nostore_filter by done. simpl. lia.
    + intros pre p v d post E. by destruct (nostore_no_split _ _ _ _ _ _ N E).
    + intros tg _. split; [intros p v d; by apply nostore_not_in|].
      intros Hin. by destruct (quiet_not_asked _ _ Q Hin).
  - destruct (ApplyConfigInteraction_runs w atcConfig) as (tg' & b & Eg' & Ng).
    rewrite Eg in Eg'. inversion Eg'; subst tg' b.
    assert (N : Forall (fun x : event Body => isStore x = false)
                  (t0 ++ t ++ tg ++ [Println "bailing out"])).
    { repeat apply Forall_app_2; try (by apply quiet_nostore); [done|by repeat constructor]. }
    split_and!.
    + rewrite nostore_filter by done. simpl. lia.
    + intros pre p v d post E. by destruct (nostore_no_split _ _ _ _ _ _ N E).
    + intros _ _. split; [intros p v d; by apply nostore_not_in|done].
  - destruct (ApplyConfigInteraction_runs w atcConfig) as (tg' & b & Eg' & Ng).
    rewrite Eg in Eg'. inversion Eg'; subst tg' b.
    assert (NA : Forall (fun x : event Body => isStore x = false) ((t0 ++ t) ++ tg)).
    { repeat apply Forall_app_2; try (by apply quiet_nostore); done. }
    pose proof (quiet_nostore _ Qt') as NB.
    assert (Etrace :
      t0 ++ t ++ tg
        ++ Store (PipelineName atcConfig)
             (concourse.fetchedVersion
                (concourse.PipelineConfig (Team atcConfig) (PipelineName atcConfig)))
             doc :: t'
      = ((t0 ++ t) ++ tg)
          ++ Store (PipelineName atcConfig)
               (concourse.fetchedVersion
                  (concourse.PipelineConfig (Team atcConfig) (PipelineName atcConfig)))
               doc :: t') by by rewrite <- !app_assoc.
    rewrite Etrace. split_and!.
    + rewrite List.filter_app. simpl. rewrite !nostore_filter by done. simpl. lia.
    + intros pre p v d post E. symmetry in E.
      apply split_at_store in E as (-> & [= -> -> ->] & ->); [|done..].
      by exists (t0 ++ t), tg.
    + intros tg'' Eg''. rewrite Eg in Eg''. discriminate.
Qed.

End Apply.

(** C8 on two runs over a pipeline without placeholders: one where the
    operator accepts, in which the store is written after the prompt with
    version [42]; one where the operator declines, which returns [nil]. *)
Lemma Set_stores_once_after_confirmation_witness :
  (exists t tg,
     [CurrentEvaluator "jobs: []"; Fetch "p"; Println "resources:";
      Render "resource" (Added (demo.resource "b" "s3"));
      Interaction "apply configuration?"] = t ++ tg
     /\ ApplyConfigInteraction (demo.world (Ok true))
          (demo.atcConfig None false true false) = (tg, inl true)
     /\ "p" = PipelineName (demo.atcConfig None false true false)
     /\ "42" = concourse.fetchedVersion
                 (concourse.PipelineConfig (Team (demo.atcConfig None false true false))
                    (PipelineName (demo.atcConfig None false true false)))
     /\ (newConfig (demo.world (Ok true)) (demo.atcConfig None false true false)
           "plain.yml" [] []).2 = inl "jobs: []")
  /\ (Set_ (demo.world (Ok false)) (demo.atcConfig None false true false)
        "plain.yml" [] []).2 = Return None.
Proof.
  split.
  - destruct (Set_stores_once_after_confirmation (demo.world (Ok true))
                (demo.atcConfig None false true false) "plain.yml" [] [])
      as (_ & Hsplit & _).
    apply (Hsplit _ "p" "42" "jobs: []" [Println "configuration updated"]).
    vm_compute. reflexivity.
  - destruct (Set_stores_once_after_confirmation (demo.world (Ok false))
                (demo.atcConfig None false true false) "plain.yml" [] [])
      as (_ & _ & Hdeclined).
    destruct (Hdeclined [Interaction "apply configuration?"] eq_refl) as [_ Hnil].
    apply Hnil. vm_compute. do 4 right. left.
Defined.

(* ===================================================================== *)
(** ** Runs of the whole workflow *)
(* ===================================================================== *)

(** Two variable files and a flag: file 2 overrides file 1, the flag
    overrides file 2. *)
Example newConfig_two_files_and_flag :
  newConfig (demo.world (Ok true)) (demo.atcConfig None false true false)
    "pipeline.yml" ["vars1.yml"; "vars2.yml"] [demo.region_eu]
  = ([CurrentEvaluator "env: ((env)) region: ((region))"],
     inl "env: prod region: eu").
Proof. vm_compute. reflexivity. Qed.

(** The existing configuration has resource [a], the new one [a] and [b]:
    one record, [b] added; the operator accepts and the store answers
    with an update. *)
Example Set_accepted_run :
  Set_ (demo.world (Ok true)) (demo.atcConfig None false true false)
    "plain.yml" [] []
  = ([CurrentEvaluator "jobs: []"; Fetch "p"; Println "resources:";
      Render "resource" (Added (demo.resource "b" "s3"));
      Interaction "apply configuration?"; Store "p" "42" "jobs: []";
      Println "configuration updated"],
     Return None).
Proof. vm_compute. reflexivity. Qed.

(** The operator declines: nothing is stored. *)
Example Set_declined_run :
  Set_ (demo.world (Ok false)) (demo.atcConfig None false true false)
    "plain.yml" [] []
  = ([CurrentEvaluator "jobs: []"; Fetch "p"; Println "resources:";
      Render "resource" (Added (demo.resource "b" "s3"));
      Interaction "apply configuration?"; Println "bailing out"],
     Return None).
Proof. vm_compute. reflexivity. Qed.

(** A store answering with neither flag set makes the run panic, after
    the write. *)
Example Set_neither_flag_run :
  Set_ (demo.world (Ok true)) (demo.atcConfig None false false true)
    "plain.yml" [] []
  = ([CurrentEvaluator "jobs: []"; Fetch "p"; Println "resources:";
      Render "resource" (Added (demo.resource "b" "s3"));
      Store "p" "42" "jobs: []"],
     Panic "Something really went wrong!").
Proof. vm_compute. reflexivity. Qed.

(** A placeholder without a value stops the process before anything is
    fetched. *)
Example Set_missing_variable_run :
  Set_ (demo.world (Ok true)) (demo.atcConfig None false true false)
    "pipeline.yml" [] ["vars1.yml"]
  = ([CurrentEvaluator "env: ((env)) region: ((region))"],
     Exit "could not resolve template vars" (MissingVariableError ["region"])).
Proof. vm_compute. reflexivity. Qed.

(* ===================================================================== *)
(** ** Every run follows one of the paths *)
(* ===================================================================== *)

Section Runs.

Context {Body : Type} `{!EqDecision Body}.
Context (w : World Body).
Import flaghelpers.

Lemma diff_value (existingConfig new : Config Body) :
  diff existingConfig new = ((diff existingConfig new).1, inl tt).
Proof. by destruct (diff_runs existingConfig new) as (t & -> & _). Qed.

Lemma quiet_diff (existingConfig new : Config Body) :
  quiet (diff existingConfig new).1.
Proof. by destruct (diff_runs existingConfig new) as (t & -> & Q). Qed.

Lemma shownErrors_value (errorMessages : list string) :
  match errorMessages with
  | [] => mret tt
  | _ :: _ => showPipelineConfigErrors (Body := Body) errorMessages
  end = (shownErrors errorMessages, inl tt).
Proof.
  destruct errorMessages as [|m ms]; [done|].
  unfold shownErrors. by rewrite showPipelineConfigErrors_runs.
Qed.

Lemma quiet_shownErrors (errorMessages : list string) :
  quiet (shownErrors (Body := Body) errorMessages).
Proof.
  destruct errorMessages as [|m ms]; [constructor|].
  apply showPipelineConfigErrors_quiet.
Qed.

Lemma shownWarnings_value (warnings : list concourse.ConfigWarning) :
  match warnings with
  | [] => mret tt
  | _ :: _ => showWarnings (Body := Body) warnings
  end = (shownWarnings warnings, inl tt).
Proof.
  destruct warnings as [|c cs]; [done|].
  unfold shownWarnings. by destruct (showWarnings_runs (Body := Body) (c :: cs)) as (t & -> & _).
Qed.

Lemma quiet_shownWarnings (warnings : list concourse.ConfigWarning) :
  quiet (shownWarnings (Body := Body) warnings).
Proof.
  destruct warnings as [|c cs]; [constructor|].
  unfold shownWarnings. by destruct (showWarnings_runs (Body := Body) (c :: cs)) as (t & -> & Q).
Qed.

Lemma quiet_showHelpfulMessage (atcConfig : ATCConfig Body) (created updated : bool) :
  quiet (showHelpfulMessage atcConfig created updated).1.
Proof.
  by destruct (showHelpfulMessage_runs atcConfig created updated) as (t & r & -> & Q).
Qed.

(** The gate either is skipped, or consults the prompt once and follows
    its answer, an error counting as a refusal. *)
Lemma ApplyConfigInteraction_cases (atcConfig : ATCConfig Body) :
  (SkipInteraction atcConfig = true
   /\ ApplyConfigInteraction w atcConfig = ([], inl true))
  \/ (SkipInteraction atcConfig = false
      /\ exists b,
          ApplyConfigInteraction w atcConfig
          = ([Interaction "apply configuration?"], inl b)
          /\ (b = true <-> Resolve w "apply configuration?" = Ok true)).
Proof.
  unfold ApplyConfigInteraction.
  destruct (SkipInteraction atcConfig); [by left|right].
  split; [done|]. simpl.
  destruct (Resolve w "apply configuration?") as [[]|e]; simpl;
    eexists; (split; [reflexivity|]); split; congruence.
Qed.

Lemma afterFetch_path (atcConfig : ATCConfig Body) (doc : string)
    (errorMessages : list string) (new : Config Body) :
  toleratedMessages
    (concourse.fetchedErr
       (concourse.PipelineConfig (Team atcConfig) (PipelineName atcConfig)))
    = Some errorMessages ->
  UnmarshalConfig w doc = Ok new ->
  exists t h,
    (let '(t', r) :=
       (_ ← diff (concourse.fetchedConfig
                    (concourse.PipelineConfig (Team atcConfig) (PipelineName atcConfig)))
              new;
        _ ← match errorMessages with
            | [] => mret tt
            | _ :: _ => showPipelineConfigErrors errorMessages
            end;
        confirmed ← ApplyConfigInteraction w atcConfig;
        if negb confirmed then
          _ ← emit (Println "bailing out");
          stop (Return None)
        else
          _ ← emit (Store (PipelineName atcConfig)
                      (concourse.fetchedVersion
                         (concourse.PipelineConfig (Team atcConfig)
                            (PipelineName atcConfig)))
                      doc);
          match concourse.storedErr
                  (concourse.CreateOrUpdatePipelineConfig (Team atcConfig)
                     (PipelineName atcConfig)
                     (concourse.fetchedVersion
                        (concourse.PipelineConfig (Team atcConfig)
                           (PipelineName atcConfig)))
                     doc) with
          | Some err => stop (Return (Some err))
          | None =>
              _ ← match concourse.storedWarnings
                          (concourse.CreateOrUpdatePipelineConfig (Team atcConfig)
                             (PipelineName atcConfig)
                             (concourse.fetchedVersion
                                (concourse.PipelineConfig (Team atcConfig)
                                   (PipelineName atcConfig)))
                             doc) with
                  | [] => mret tt
                  | _ :: _ =>
                      showWarnings
                        (concourse.storedWarnings
                           (concourse.CreateOrUpdatePipelineConfig (Team atcConfig)
                              (PipelineName atcConfig)
                              (concourse.fetchedVersion
                                 (concourse.PipelineConfig (Team atcConfig)
                                    (PipelineName atcConfig)))
                              doc))
                  end;
              _ ← showHelpfulMessage atcConfig
                    (concourse.storedCreated
                       (concourse.CreateOrUpdatePipelineConfig (Team atcConfig)
                          (PipelineName atcConfig)
                          (concourse.fetchedVersion
                             (concourse.PipelineConfig (Team atcConfig)
                                (PipelineName atcConfig)))
                          doc))
                    (concourse.storedUpdated
                       (concourse.CreateOrUpdatePipelineConfig (Team atcConfig)
                          (PipelineName atcConfig)
                          (concourse.fetchedVersion
                             (concourse.PipelineConfig (Team atcConfig)
                                (PipelineName atcConfig)))
                          doc));
              stop (Return None)
          end) in
     (Fetch (PipelineName atcConfig) :: t', (r : unit + halt)))
    = (t, inr h)
    /\ path w atcConfig doc (t, h).
Proof.
  intros Htol Hparse.
  pose proof (bailed_out w atcConfig doc errorMessages new) as Pbail.
  pose proof (store_failed w atcConfig doc errorMessages new) as Pfail.
  pose proof (reported w atcConfig doc errorMessages new) as Prep.
  rewrite diff_value, shownErrors_value.
  destruct (ApplyConfigInteraction_runs w atcConfig) as (tg & b & Eg & _).
  rewrite Eg. destruct b; simpl.
  - specialize (Pfail tg). specialize (Prep tg Htol Hparse Eg).
    destruct (concourse.storedErr _) as [e|]; simpl.
    + eexists _, _. split; [reflexivity|]. by apply (Pfail e).
    + rewrite shownWarnings_value. simpl.
      specialize (Prep eq_refl).
      destruct (showHelpfulMessage atcConfig _ _) as [tm [[]|hm]]; simpl in *;
        eexists _, _; (split; [reflexivity|]); by rewrite ?app_nil_r.
  - eexists _, _. split; [reflexivity|]. by apply Pbail.
Qed.

(** Whatever the environment, the body of [Set] after resolution follows
    one of the five paths, and never hands a value on. *)
Lemma setResolved_path (atcConfig : ATCConfig Body) (doc : string) :
  exists t h,
    setResolved w atcConfig doc = (t, inr h) /\ path w atcConfig doc (t, h).
Proof.
  unfold setResolved. rewrite bind_emit. cbv beta.
  pose proof (afterFetch_path atcConfig doc) as Hgo.
  pose proof (parse_failed w atcConfig doc) as Pparse.
  pose proof (fetch_failed w atcConfig doc) as Pfetch.
  destruct (concourse.fetchedErr
              (concourse.PipelineConfig (Team atcConfig) (PipelineName atcConfig)))
    as [[msgs|p|ns|m]|];
    try (eexists _, _; split; [reflexivity|]; by apply Pfetch).
  - rewrite bind_mret.
    destruct (UnmarshalConfig w doc) as [new|e].
    + rewrite bind_mret. exact (Hgo msgs new eq_refl eq_refl).
    + eexists _, _. split; [reflexivity|]. exact (Pparse msgs e eq_refl eq_refl).
  - rewrite bind_mret.
    destruct (UnmarshalConfig w doc) as [new|e].
    + rewrite bind_mret. exact (Hgo [] new eq_refl eq_refl).
    + eexists _, _. split; [reflexivity|]. exact (Pparse [] e eq_refl eq_refl).
Qed.

(** A run of [Set] is a failed resolution, or a resolution followed by
    one of the five paths. *)
Lemma Set_paths (atcConfig : ATCConfig Body) (configPath : string)
    (templateVariables : list VariablePairFlag)
    (templateVariablesFiles : list string) :
  (exists t0 h0,
     newConfig w atcConfig configPath templateVariablesFiles templateVariables
       = (t0, inr h0)
     /\ Set_ w atcConfig configPath templateVariables templateVariablesFiles = (t0, h0))
  \/ (exists t0 doc t1 h,
        newConfig w atcConfig configPath templateVariablesFiles templateVariables
          = (t0, inl doc)
        /\ path w atcConfig doc (t1, h)
        /\ Set_ w atcConfig configPath templateVariables templateVariablesFiles
           = (t0 ++ t1, h)).
Proof.
  unfold Set_.
  destruct (newConfig w atcConfig configPath templateVariablesFiles templateVariables)
    as [t0 [doc|h0]].
  - right. destruct (setResolved_path atcConfig doc) as (t1 & h & E & P).
    exists t0, doc, t1, h. split; [done|]. split; [done|].
    unfold mbind, Cmd_bind. by rewrite E.
  - left. by exists t0, h0.
Qed.

End Runs.

(* ===================================================================== *)
(** ** Resolution: how it fails *)
(* ===================================================================== *)

Section Resolution.

Context {Body : Type} `{!EqDecision Body}.
Context (w : World Body).
Import flaghelpers.

Lemma readPayloads_halt (templateVariablesFiles : list string) (h : halt) :
  (readPayloads w templateVariablesFiles).2 = inr h ->
  exists path e,
    path ∈ templateVariablesFiles
    /\ ReadFile w path = Err e
    /\ h = Exit ("could not read template variables file (" +:+ path +:+ ")") e.
Proof.
  induction templateVariablesFiles as [|path rest IH]; [discriminate|].
  simpl. destruct (ReadFile w path) as [p|e] eqn:Hp; simpl.
  - destruct (readPayloads w rest) as [t [ps|h']]; simpl in *; [discriminate|].
    intros [= <-]. destruct (IH eq_refl) as (path' & e & Hin & Hr & ->).
    exists path', e. split; [by right|done].
  - intros [= <-]. exists path, e. split; [by left|done].
Qed.

Lemma newConfig_halt_is_exit
    (atcConfig : ATCConfig Body) (configPath : string)
    (templateVariablesFiles : list string) (templateVariables : list VariablePairFlag)
    (h : halt) :
  (newConfig w atcConfig configPath templateVariablesFiles templateVariables).2 = inr h ->
  exists m e, h = Exit m e.
Proof.
  unfold newConfig.
  destruct (ReadFile w configPath) as [doc|e]; simpl; [|intros [= <-]; eauto].
  pose proof (readPayloads_halt templateVariablesFiles) as Hread.
  destruct (readPayloads w templateVariablesFiles) as [t [ps|h']]; simpl in *.
  2: { intros [= <-]. destruct (Hread h' eq_refl) as (path & e & _ & _ & ->). eauto. }
  destruct (temp.Present doc); simpl.
  - destruct (resolveDeprecatedTemplateStyle w doc ps templateVariables)
      as [doc'|e]; simpl; [|intros [= <-]; eauto].
    destruct (resolveTemplates w doc' ps templateVariables) as [out|e]; simpl;
      [discriminate|intros [= <-]; eauto].
  - destruct (resolveTemplates w doc ps templateVariables) as [out|e]; simpl;
      [discriminate|intros [= <-]; eauto].
Qed.

Lemma readPayloads_value (templateVariablesFiles paramPayloads : list string)
    (t : list (event Body)) :
  readPayloads w templateVariablesFiles = (t, inl paramPayloads) ->
  Forall2 (fun path p => ReadFile w path = Ok p) templateVariablesFiles paramPayloads.
Proof.
  revert paramPayloads t.
  induction templateVariablesFiles as [|path rest IH]; intros ps t; simpl.
  - intros [= <- <-]. constructor.
  - destruct (ReadFile w path) as [p|e] eqn:Hp; simpl; [|discriminate].
    destruct (readPayloads w rest) as [t' [ps'|h']]; simpl; [|discriminate].
    intros [= <- <-]. constructor; [done|]. by eapply IH.
Qed.

Lemma readPayloads_halt_first (templateVariablesFiles : list string) (h : halt) :
  (readPayloads w templateVariablesFiles).2 = inr h ->
  exists pre path post paramPayloads e,
    templateVariablesFiles = pre ++ path :: post
    /\ Forall2 (fun q p => ReadFile w q = Ok p) pre paramPayloads
    /\ ReadFile w path = Err e
    /\ h = Exit ("could not read template variables file (" +:+ path +:+ ")") e.
Proof.
  induction templateVariablesFiles as [|path rest IH]; [discriminate|].
  simpl. destruct (ReadFile w path) as [p|e] eqn:Hp; simpl.
  - destruct (readPayloads w rest) as [t [ps|h']]; simpl in *; [discriminate|].
    intros [= <-].
    destruct (IH eq_refl) as (pre & path' & post & ps & e & -> & Hpre & Hr & ->).
    exists (path :: pre), path', post, (p :: ps), e.
    split_and!; [done| |done..]. by constructor.
  - intros [= <-]. exists [], path, rest, [], e. split_and!; [done|constructor|done..].
Qed.

(** X5.  [newConfig] never returns an error and never panics: when it
    yields no document it has left the process, and the message and the
    error it leaves with tell why.  Either the config file could not be
    read, and the error is the one of that read; or a variable file could
    not be read, all those listed before it being read, and the error is
    the one of that read; or the marker was present and
    [resolveDeprecatedTemplateStyle] failed on the document as read, and
    the error is the one it returned; or [resolveTemplates] failed on the
    output of the legacy evaluator (on the document as read without the
    marker), and the error is the one it returned. *)
Theorem newConfig_halts_only_by_exit
    (atcConfig : ATCConfig Body) (configPath : string)
    (templateVariablesFiles : list string) (templateVariables : list VariablePairFlag)
    (h : halt) :
  (newConfig w atcConfig configPath templateVariablesFiles templateVariables).2 = inr h ->
  (exists e,
     ReadFile w configPath = Err e
     /\ h = Exit "could not read config file" e)
  \/ (exists doc pre path post paramPayloads e,
        ReadFile w configPath = Ok doc
        /\ templateVariablesFiles = pre ++ path :: post
        /\ Forall2 (fun q p => ReadFile w q = Ok p) pre paramPayloads
        /\ ReadFile w path = Err e
        /\ h = Exit ("could not read template variables file (" +:+ path +:+ ")") e)
  \/ (exists doc paramPayloads e,
        ReadFile w configPath = Ok doc
        /\ Forall2 (fun q p => ReadFile w q = Ok p) templateVariablesFiles paramPayloads
        /\ temp.Present doc = true
        /\ resolveDeprecatedTemplateStyle w doc paramPayloads templateVariables = Err e
        /\ h = Exit "could not resolve old-style template vars" e)
  \/ (exists doc paramPayloads doc' e,
        ReadFile w configPath = Ok doc
        /\ Forall2 (fun q p => ReadFile w q = Ok p) templateVariablesFiles paramPayloads
        /\ ((temp.Present doc = true
             /\ resolveDeprecatedTemplateStyle w doc paramPayloads templateVariables
                = Ok doc')
            \/ (temp.Present doc = false /\ doc' = doc))
        /\ resolveTemplates w doc' paramPayloads templateVariables = Err e
        /\ h = Exit "could not resolve template vars" e).
Proof.
  unfold newConfig.
  destruct (ReadFile w configPath) as [doc|e] eqn:Hdoc; simpl.
  2: { intros [= <-]. left. by exists e. }
  pose proof (readPayloads_halt_first templateVariablesFiles) as Hfirst.
  pose proof (readPayloads_value templateVariablesFiles) as Hall.
  destruct (readPayloads w templateVariablesFiles) as [t [ps|h']]; simpl in *.
  2: { intros [= <-].
       destruct (Hfirst h' eq_refl) as (pre & path & post & pps & e & ? & ? & ? & ?).
       right. left. by exists doc, pre, path, post, pps, e. }
  specialize (Hall ps t eq_refl). clear Hfirst.
  destruct (temp.Present doc) eqn:Hold; simpl.
  - destruct (resolveDeprecatedTemplateStyle w doc ps templateVariables)
      as [doc'|e] eqn:Hleg; simpl.
    + destruct (resolveTemplates w doc' ps templateVariables) as [out|e] eqn:Hcur;
        simpl; [discriminate|].
      intros [= <-]. do 3 right. exists doc, ps, doc', e.
      split_and!; [done|done| |done|done]. by left.
    + intros [= <-]. right. right. left. by exists doc, ps, e.
  - destruct (resolveTemplates w doc ps templateVariables) as [out|e] eqn:Hcur;
      simpl; [discriminate|].
    intros [= <-]. do 3 right. exists doc, ps, doc, e.
    split_and!; [done|done| |done|done]. by right.
Qed.

Lemma newConfig_only_evaluates
    (atcConfig : ATCConfig Body) (configPath : string)
    (templateVariablesFiles : list string) (templateVariables : list VariablePairFlag)
    (ev : event Body) :
  ev ∈ (newConfig w atcConfig configPath templateVariablesFiles templateVariables).1 ->
  exists d, ev = LegacyEvaluator d \/ ev = CurrentEvaluator d.
Proof.
  unfold newConfig. destruct (ReadFile w configPath) as [doc|e]; simpl;
    [|by intros ?%elem_of_nil].
  pose proof (readPayloads_silent w templateVariablesFiles) as Hs.
  destruct (readPayloads w templateVariablesFiles) as [t [ps|h]]; simpl in *; subst;
    [|by intros ?%elem_of_nil].
  destruct (temp.Present doc); simpl.
  - destruct (resolveDeprecatedTemplateStyle w doc ps templateVariables) as [doc'|e];
      simpl.
    + destruct (resolveTemplates w doc' ps templateVariables); simpl;
        rewrite !elem_of_cons, elem_of_nil; intros [->|[->|[]]]; eauto.
    + rewrite !elem_of_cons, elem_of_nil; intros [->|[]]; eauto.
  - destruct (resolveTemplates w doc ps templateVariables); simpl;
      rewrite !elem_of_cons, elem_of_nil; intros [->|[]]; eauto.
Qed.

Lemma readPayloads_stops (pre post paramPayloads : list string) (path : string) (e : error) :
  Forall2 (fun q p => ReadFile w q = Ok p) pre paramPayloads ->
  ReadFile w path = Err e ->
  readPayloads w (pre ++ path :: post)
  = ([], inr (Exit ("could not read template variables file (" +:+ path +:+ ")") e)).
Proof.
  intros Hpre Hpath. induction Hpre as [|q p qs ps Hq _ IH]; simpl.
  - by rewrite Hpath.
  - by rewrite Hq, IH.
Qed.

(** X4.  When the config file is read and a variable file is not, all
    the files listed before it being read, [newConfig] leaves the process
    with a message naming that file, and no evaluator has been started. *)
Theorem newConfig_stops_at_first_unreadable_file
    (atcConfig : ATCConfig Body) (configPath : string)
    (pre post : list string) (path : string)
    (templateVariables : list VariablePairFlag)
    (doc : string) (paramPayloads : list string) (e : error) :
  ReadFile w configPath = Ok doc ->
  Forall2 (fun q p => ReadFile w q = Ok p) pre paramPayloads ->
  ReadFile w path = Err e ->
  newConfig w atcConfig configPath (pre ++ path :: post) templateVariables
  = ([], inr (Exit ("could not read template variables file (" +:+ path +:+ ")") e)).
Proof.
  intros Hdoc Hpre Hpath. unfold newConfig. rewrite Hdoc. simpl.
  by rewrite (readPayloads_stops _ _ _ _ _ Hpre Hpath).
Qed.

End Resolution.

(* ===================================================================== *)
(** ** What a run of [Set] never does *)
(* ===================================================================== *)

Section Never.

Context {Body : Type} `{!EqDecision Body}.
Context (w : World Body).
Import flaghelpers.

Implicit Types (t : list (event Body)).

Lemma showHelpfulMessage_halt (atcConfig : ATCConfig Body) (created updated : bool)
    (h : halt) :
  (showHelpfulMessage atcConfig created updated).2 = inr h ->
  created = false /\ updated = false /\ h = Panic "Something really went wrong!".
Proof. destruct updated, created; simpl; try discriminate. by intros [= <-]. Qed.

Lemma quiet_no_interaction t : quiet t -> List.filter isInteraction t = [].
Proof. induction 1 as [|e t [_ He] _ IH]; [done|]. simpl. by rewrite He. Qed.

Lemma trace_around t0 (a : event Body) td ts tg rest :
  t0 ++ a :: td ++ ts ++ tg ++ rest = (t0 ++ a :: td ++ ts ++ tg) ++ rest.
Proof. rewrite <- (app_assoc t0). simpl. by rewrite <- !app_assoc. Qed.

Lemma no_store_in_quiet t p v d : quiet t -> Store p v d ∉ t.
Proof. intros Q Hin. by destruct (quiet_elem _ _ Q Hin). Qed.

Lemma no_store_in_gate (atcConfig : ATCConfig Body) tg b p v d :
  ApplyConfigInteraction w atcConfig = (tg, inl b) -> Store p v d ∉ tg.
Proof.
  intros Eg Hin.
  destruct (ApplyConfigInteraction_cases w atcConfig) as [[_ E]|(_ & b' & E & _)];
    rewrite Eg in E; injection E as -> _.
  - by apply elem_of_nil in Hin.
  - apply elem_of_cons in Hin as [?|?%elem_of_nil]; [discriminate|done].
Qed.

(** A path in which a store event occurs is one of the two that write,
    and the event is the one written after the gate accepted. *)
Lemma path_written (atcConfig : ATCConfig Body) (doc : string) t0 t1 h p v d :
  quiet t0 ->
  path w atcConfig doc (t1, h) ->
  Store p v d ∈ t0 ++ t1 ->
  p = PipelineName atcConfig
  /\ v = concourse.fetchedVersion
           (concourse.PipelineConfig (Team atcConfig) (PipelineName atcConfig))
  /\ d = doc
  /\ exists errorMessages new tg post,
      toleratedMessages
        (concourse.fetchedErr
           (concourse.PipelineConfig (Team atcConfig) (PipelineName atcConfig)))
        = Some errorMessages
      /\ UnmarshalConfig w doc = Ok new
      /\ ApplyConfigInteraction w atcConfig = (tg, inl true)
      /\ t1 = Fetch (PipelineName atcConfig)
                :: (diff (concourse.fetchedConfig
                            (concourse.PipelineConfig (Team atcConfig)
                               (PipelineName atcConfig))) new).1
                ++ shownErrors errorMessages ++ tg
                ++ Store p v d :: post
      /\ ((exists e,
             concourse.storedErr
               (concourse.CreateOrUpdatePipelineConfig (Team atcConfig) p v d) = Some e
             /\ post = [] /\ h = Return (Some e))
          \/ (concourse.storedErr
                (concourse.CreateOrUpdatePipelineConfig (Team atcConfig) p v d) = None
              /\ post
                 = shownWarnings
                     (concourse.storedWarnings
                        (concourse.CreateOrUpdatePipelineConfig (Team atcConfig) p v d))
                   ++ (showHelpfulMessage atcConfig
                         (concourse.storedCreated
                            (concourse.CreateOrUpdatePipelineConfig (Team atcConfig)
                               p v d))
                         (concourse.storedUpdated
                            (concourse.CreateOrUpdatePipelineConfig (Team atcConfig)
                               p v d))).1
              /\ h = match (showHelpfulMessage atcConfig
                              (concourse.storedCreated
                                 (concourse.CreateOrUpdatePipelineConfig
                                    (Team atcConfig) p v d))
                              (concourse.storedUpdated
                                 (concourse.CreateOrUpdatePipelineConfig
                                    (Team atcConfig) p v d))).2 with
                     | inl _ => Return None
                     | inr h' => h'
                     end)).
Proof.
  intros Q0 P Hin.
  apply elem_of_app in Hin as [Hin|Hin]; [by destruct (no_store_in_quiet _ _ _ _ Q0 Hin)|].
  inversion P as [e Hf Ht|msgs e Ht Hp|msgs new tg Ht Hp Eg|msgs new tg e Ht Hp Eg Hs
                 |msgs new tg Ht Hp Eg Hs]; subst t1 h.
  - apply elem_of_cons in Hin as [?|?%elem_of_nil]; [discriminate|done].
  - apply elem_of_cons in Hin as [?|?%elem_of_nil]; [discriminate|done].
  - exfalso. rewrite elem_of_cons, !elem_of_app, elem_of_cons, elem_of_nil in Hin.
    destruct Hin as [?|[Hin|[Hin|[Hin|[?|[]]]]]]; try discriminate.
    + by eapply no_store_in_quiet; [apply quiet_diff|].
    + by eapply no_store_in_quiet; [apply quiet_shownErrors|].
    + by eapply no_store_in_gate.
  - rewrite elem_of_cons, !elem_of_app, elem_of_cons, elem_of_nil in Hin.
    destruct Hin as [?|[Hin|[Hin|[Hin|[Heq|[]]]]]]; try discriminate.
    + exfalso. by eapply no_store_in_quiet; [apply quiet_diff|].
    + exfalso. by eapply no_store_in_quiet; [apply quiet_shownErrors|].
    + exfalso. by eapply no_store_in_gate.
    + injection Heq as -> -> ->. split_and!; [done..|].
      exists msgs, new, tg, []. split_and!; [done..|]. left. by exists e.
  - rewrite elem_of_cons, !elem_of_app, elem_of_cons, !elem_of_app in Hin.
    destruct Hin as [?|[Hin|[Hin|[Hin|[Heq|[Hin|Hin]]]]]]; try discriminate.
    + exfalso. by eapply no_store_in_quiet; [apply quiet_diff|].
    + exfalso. by eapply no_store_in_quiet; [apply quiet_shownErrors|].
    + exfalso. by eapply no_store_in_gate.
    + injection Heq as -> -> ->. split_and!; [done..|].
      exists msgs, new, tg. eexists. split_and!; [done..|]. by right.
    + exfalso. by eapply no_store_in_quiet; [apply quiet_shownWarnings|].
    + exfalso. by eapply no_store_in_quiet; [apply quiet_showHelpfulMessage|].
Qed.

Lemma path_never_exits (atcConfig : ATCConfig Body) (doc : string) t h m e :
  path w atcConfig doc (t, h) -> h <> Exit m e.
Proof.
  inversion 1; subst; try discriminate.
  destruct (showHelpfulMessage atcConfig _ _) as [tm [[]|hm]] eqn:E; simpl;
    [discriminate|].
  pose proof (showHelpfulMessage_halt atcConfig _ _ hm (f_equal snd E)) as (_ & _ & ->).
  discriminate.
Qed.

(** X6.  A run of [Set] that leaves the process has done so during
    resolution: its events are those of [newConfig], all of them evaluator
    starts, so the existing configuration was not fetched, nothing was
    printed, the prompt was not consulted and the store was not written. *)
Theorem Set_exits_before_any_contact
    (atcConfig : ATCConfig Body) (configPath : string)
    (templateVariables : list VariablePairFlag)
    (templateVariablesFiles : list string) (m : string) (e : error) :
  (Set_ w atcConfig configPath templateVariables templateVariablesFiles).2 = Exit m e ->
  newConfig w atcConfig configPath templateVariablesFiles templateVariables
  = ((Set_ w atcConfig configPath templateVariables templateVariablesFiles).1,
     inr (Exit m e))
  /\ forall ev,
       ev ∈ (Set_ w atcConfig configPath templateVariables templateVariablesFiles).1 ->
       exists d, ev = LegacyEvaluator d \/ ev = CurrentEvaluator d.
Proof.
  intros Hexit.
  pose proof (newConfig_only_evaluates w atcConfig configPath templateVariablesFiles
                templateVariables) as Honly.
  destruct (Set_paths w atcConfig configPath templateVariables templateVariablesFiles)
    as [(t0 & h0 & En & Es)|(t0 & doc & t1 & h & En & P & Es)];
    rewrite Es in *; simpl in *.
  - subst h0. rewrite En in *. by split.
  - subst h. by destruct (path_never_exits _ _ _ _ m e P).
Qed.

(** X8.  A run of [Set] panics only after it has written the store: the
    store answered without an error and with neither flag set. *)
Theorem Set_panics_only_after_store
    (atcConfig : ATCConfig Body) (configPath : string)
    (templateVariables : list VariablePairFlag)
    (templateVariablesFiles : list string) (m : string) :
  (Set_ w atcConfig configPath templateVariables templateVariablesFiles).2 = Panic m ->
  exists p v d,
    Store p v d
      ∈ (Set_ w atcConfig configPath templateVariables templateVariablesFiles).1
    /\ concourse.storedErr
         (concourse.CreateOrUpdatePipelineConfig (Team atcConfig) p v d) = None
    /\ concourse.storedCreated
         (concourse.CreateOrUpdatePipelineConfig (Team atcConfig) p v d) = false
    /\ concourse.storedUpdated
         (concourse.CreateOrUpdatePipelineConfig (Team atcConfig) p v d) = false.
Proof.
  intros Hpanic.
  destruct (Set_paths w atcConfig configPath templateVariables templateVariablesFiles)
    as [(t0 & h0 & En & Es)|(t0 & doc & t1 & h & En & P & Es)];
    rewrite Es in *; simpl in *.
  - subst h0.
    destruct (newConfig_halt_is_exit w atcConfig configPath templateVariablesFiles
                templateVariables (Panic m)) as (m' & e & ?);
      [by rewrite En|discriminate].
  - subst h.
    inversion P as [| | | |msgs new tg Ht Hp Eg Hs]; subst t1.
    match goal with H : _ = Panic m |- _ => rename H into Eh end.
    destruct (showHelpfulMessage atcConfig _ _) as [tm [[]|hm]] eqn:E;
      simpl in Eh; [discriminate|]. subst hm.
    pose proof (showHelpfulMessage_halt atcConfig _ _ _ (f_equal snd E)) as (Hc & Hu & _).
    eexists _, _, _. split; [|done].
    rewrite elem_of_app, elem_of_cons, !elem_of_app, elem_of_cons.
    right. right. right. right. right. by left.
Qed.

(** X7.  When the store is written and answers with an error, [Set]
    returns that error and nothing follows the write: no warning, no
    report. *)
Theorem Set_returns_the_store_error
    (atcConfig : ATCConfig Body) (configPath : string)
    (templateVariables : list VariablePairFlag)
    (templateVariablesFiles : list string) (p v d : string) (e : error) :
  Store p v d
    ∈ (Set_ w atcConfig configPath templateVariables templateVariablesFiles).1 ->
  concourse.storedErr
    (concourse.CreateOrUpdatePipelineConfig (Team atcConfig) p v d) = Some e ->
  (Set_ w atcConfig configPath templateVariables templateVariablesFiles).2
    = Return (Some e)
  /\ exists pre,
      (Set_ w atcConfig configPath templateVariables templateVariablesFiles).1
      = pre ++ [Store p v d].
Proof.
  intros Hin Herr.
  pose proof (newConfig_quiet w atcConfig configPath templateVariablesFiles
                templateVariables) as Q0.
  destruct (Set_paths w atcConfig configPath templateVariables templateVariablesFiles)
    as [(t0 & h0 & En & Es)|(t0 & doc & t1 & h & En & P & Es)];
    rewrite Es in *; rewrite En in Q0; simpl in *.
  - by destruct (no_store_in_quiet _ _ _ _ Q0 Hin).
  - destruct (path_written _ _ _ _ _ _ _ _ Q0 P Hin)
      as (_ & _ & _ & msgs & new & tg & post & _ & _ & _ & -> & Hpost).
    destruct Hpost as [(e' & He' & -> & ->)|(Hnone & _)]; [|congruence].
    split; [congruence|].
    eexists. apply trace_around.
Qed.

(** X10.  The store is written only when the interaction is skipped or
    the prompt answered yes. *)
Theorem Set_stores_only_on_skip_or_yes
    (atcConfig : ATCConfig Body) (configPath : string)
    (templateVariables : list VariablePairFlag)
    (templateVariablesFiles : list string) (p v d : string) :
  Store p v d
    ∈ (Set_ w atcConfig configPath templateVariables templateVariablesFiles).1 ->
  SkipInteraction atcConfig = true
  \/ Resolve w "apply configuration?" = Ok true.
Proof.
  intros Hin.
  pose proof (newConfig_quiet w atcConfig configPath templateVariablesFiles
                templateVariables) as Q0.
  destruct (Set_paths w atcConfig configPath templateVariables templateVariablesFiles)
    as [(t0 & h0 & En & Es)|(t0 & doc & t1 & h & En & P & Es)];
    rewrite Es in *; rewrite En in Q0; simpl in *.
  - by destruct (no_store_in_quiet _ _ _ _ Q0 Hin).
  - destruct (path_written _ _ _ _ _ _ _ _ Q0 P Hin)
      as (_ & _ & _ & msgs & new & tg & post & _ & _ & Eg & _).
    destruct (ApplyConfigInteraction_cases w atcConfig) as [[? _]|(_ & b & E & Hb)];
      [by left|right].
    rewrite Eg in E. injection E as _ <-. by apply Hb.
Qed.

(** X11.  Whatever document is written to the store is the one
    [newConfig] returned, it parses as a configuration, the fetch had
    failed at most with a [PipelineConfigError], and the events of the diff
    between the fetched configuration and the parsed one are in the run. *)
Theorem Set_stores_what_was_parsed_and_diffed
    (atcConfig : ATCConfig Body) (configPath : string)
    (templateVariables : list VariablePairFlag)
    (templateVariablesFiles : list string) (p v d : string) :
  Store p v d
    ∈ (Set_ w atcConfig configPath templateVariables templateVariablesFiles).1 ->
  (newConfig w atcConfig configPath templateVariablesFiles templateVariables).2 = inl d
  /\ exists errorMessages new,
      toleratedMessages
        (concourse.fetchedErr
           (concourse.PipelineConfig (Team atcConfig) (PipelineName atcConfig)))
        = Some errorMessages
      /\ UnmarshalConfig w d = Ok new
      /\ forall ev,
           ev ∈ (diff (concourse.fetchedConfig
                         (concourse.PipelineConfig (Team atcConfig)
                            (PipelineName atcConfig))) new).1 ->
           ev ∈ (Set_ w atcConfig configPath templateVariables templateVariablesFiles).1.
Proof.
  intros Hin.
  pose proof (newConfig_quiet w atcConfig configPath templateVariablesFiles
                templateVariables) as Q0.
  destruct (Set_paths w atcConfig configPath templateVariables templateVariablesFiles)
    as [(t0 & h0 & En & Es)|(t0 & doc & t1 & h & En & P & Es)];
    rewrite Es in *; rewrite En in *; simpl in *.
  - by destruct (no_store_in_quiet _ _ _ _ Q0 Hin).
  - destruct (path_written _ _ _ _ _ _ _ _ Q0 P Hin)
      as (_ & _ & -> & msgs & new & tg & post & Ht & Hp & _ & -> & _).
    split; [done|]. exists msgs, new. split_and!; [done..|].
    intros ev Hev. rewrite elem_of_app, elem_of_cons, elem_of_app. auto.
Qed.

Lemma showWarnings_trace (warnings : list concourse.ConfigWarning) :
  showWarnings (Body := Body) warnings
  = (Errln "" :: PrintDeprecationWarningHeader
       :: ((fun warning => Errln ("  - " +:+ concourse.Message warning)) <$> warnings)
       ++ [Errln ""], inl tt).
Proof. unfold showWarnings. by rewrite each_emit. Qed.

Lemma showWarnings_lines (warnings : list concourse.ConfigWarning)
    (warning : concourse.ConfigWarning) :
  warning ∈ warnings ->
  Errln ("  - " +:+ concourse.Message warning) ∈ shownWarnings (Body := Body) warnings.
Proof.
  intros Hin. destruct warnings as [|c cs]; [by apply elem_of_nil in Hin|].
  unfold shownWarnings. rewrite showWarnings_trace. cbn [fst].
  do 2 right. apply elem_of_app. left.
  apply list_elem_of_fmap. by exists warning.
Qed.

(** X13.  When the store is written and answers without an error, every
    warning it returned is printed, after the write. *)
Theorem Set_prints_the_store_warnings
    (atcConfig : ATCConfig Body) (configPath : string)
    (templateVariables : list VariablePairFlag)
    (templateVariablesFiles : list string) (p v d : string)
    (warning : concourse.ConfigWarning) :
  Store p v d
    ∈ (Set_ w atcConfig configPath templateVariables templateVariablesFiles).1 ->
  concourse.storedErr
    (concourse.CreateOrUpdatePipelineConfig (Team atcConfig) p v d) = None ->
  warning ∈ concourse.storedWarnings
              (concourse.CreateOrUpdatePipelineConfig (Team atcConfig) p v d) ->
  exists pre post,
    (Set_ w atcConfig configPath templateVariables templateVariablesFiles).1
    = pre ++ Store p v d :: post
    /\ Errln ("  - " +:+ concourse.Message warning) ∈ post.
Proof.
  intros Hin Hok Hwarn.
  pose proof (newConfig_quiet w atcConfig configPath templateVariablesFiles
                templateVariables) as Q0.
  destruct (Set_paths w atcConfig configPath templateVariables templateVariablesFiles)
    as [(t0 & h0 & En & Es)|(t0 & doc & t1 & h & En & P & Es)];
    rewrite Es in *; rewrite En in Q0; simpl in *.
  - by destruct (no_store_in_quiet _ _ _ _ Q0 Hin).
  - destruct (path_written _ _ _ _ _ _ _ _ Q0 P Hin)
      as (_ & _ & _ & msgs & new & tg & post & _ & _ & _ & -> & Hpost).
    destruct Hpost as [(e' & He' & _)|(_ & -> & _)]; [congruence|].
    eexists _, _. split; [apply trace_around|].
    apply elem_of_app. left. by apply showWarnings_lines.
Qed.

(** X9.  A run of [Set] consults the prompt at most once, and not at all
    when [SkipInteraction] is set. *)
Theorem Set_prompts_at_most_once
    (atcConfig : ATCConfig Body) (configPath : string)
    (templateVariables : list VariablePairFlag)
    (templateVariablesFiles : list string) :
  length (List.filter isInteraction
            (Set_ w atcConfig configPath templateVariables templateVariablesFiles).1)
    <= 1
  /\ (SkipInteraction atcConfig = true ->
      List.filter isInteraction
        (Set_ w atcConfig configPath templateVariables templateVariablesFiles).1 = []).
Proof.
  pose proof (newConfig_quiet w atcConfig configPath templateVariablesFiles
                templateVariables) as Q0.
  assert (Hgate : forall tg b,
    ApplyConfigInteraction w atcConfig = (tg, inl b) ->
    length (List.filter isInteraction tg) <= 1
    /\ (SkipInteraction atcConfig = true -> List.filter isInteraction tg = [])).
  { intros tg b Eg.
    destruct (ApplyConfigInteraction_cases w atcConfig) as [[Hs E]|(Hs & b' & E & _)];
      rewrite Eg in E; injection E as -> _; simpl; split; try lia; try done.
    intros Hs'. congruence. }
  destruct (Set_paths w atcConfig configPath templateVariables templateVariablesFiles)
    as [(t0 & h0 & En & Es)|(t0 & doc & t1 & h & En & P & Es)];
    rewrite Es in *; rewrite En in Q0; simpl in *.
  - rewrite quiet_no_interaction by done. simpl. split; [lia|done].
  - inversion P as [e Hf Ht|msgs e Ht Hp|msgs new tg Ht Hp Eg|msgs new tg e Ht Hp Eg Hs
                   |msgs new tg Ht Hp Eg Hs]; subst t1 h;
      rewrite ?List.filter_app; simpl; rewrite ?List.filter_app; simpl;
      rewrite ?List.filter_app;
      rewrite ?(quiet_no_interaction _ Q0),
              ?(quiet_no_interaction _ (quiet_diff _ _)),
              ?(quiet_no_interaction _ (quiet_shownErrors _)),
              ?(quiet_no_interaction _ (quiet_shownWarnings _)),
              ?(quiet_no_interaction _ (quiet_showHelpfulMessage _ _ _));
      simpl; rewrite ?app_nil_r;
      try (split; [lia|done]);
      by apply (Hgate tg _ Eg).
Qed.

Lemma Store_after_gate t0 (a : event Body) td ts tg (s : event Body) rest :
  s ∈ t0 ++ a :: td ++ ts ++ tg ++ s :: rest.
Proof.
  rewrite elem_of_app, elem_of_cons, !elem_of_app, elem_of_cons.
  right. right. right. right. right. by left.
Qed.

(** X15.  A run of [Set] that returns [nil] either was declined at the
    gate, wrote nothing and ended on the line [bailing out], or wrote the
    store and got an answer without an error. *)
Theorem Set_returns_nil_after_refusal_or_success
    (atcConfig : ATCConfig Body) (configPath : string)
    (templateVariables : list VariablePairFlag)
    (templateVariablesFiles : list string) :
  (Set_ w atcConfig configPath templateVariables templateVariablesFiles).2 = Return None ->
  (exists pre tg,
     ApplyConfigInteraction w atcConfig = (tg, inl false)
     /\ (Set_ w atcConfig configPath templateVariables templateVariablesFiles).1
        = pre ++ [Println "bailing out"]
     /\ forall p v d,
          Store p v d
            ∉ (Set_ w atcConfig configPath templateVariables templateVariablesFiles).1)
  \/ (exists p v d,
        Store p v d
          ∈ (Set_ w atcConfig configPath templateVariables templateVariablesFiles).1
        /\ concourse.storedErr
             (concourse.CreateOrUpdatePipelineConfig (Team atcConfig) p v d) = None).
Proof.
  intros Hnil.
  pose proof (newConfig_quiet w atcConfig configPath templateVariablesFiles
                templateVariables) as Q0.
  destruct (Set_paths w atcConfig configPath templateVariables templateVariablesFiles)
    as [(t0 & h0 & En & Es)|(t0 & doc & t1 & h & En & P & Es)];
    rewrite Es in *; rewrite En in Q0; simpl in *.
  - subst h0.
    destruct (newConfig_halt_is_exit w atcConfig configPath templateVariablesFiles
                templateVariables (Return None)) as (m' & e & ?);
      [by rewrite En|discriminate].
  - subst h.
    inversion P as [| |msgs new tg Ht Hp Eg|
                   |msgs new tg Ht Hp Eg Hs]; subst t1.
    + left. exists (t0 ++ Fetch (PipelineName atcConfig)
                      :: (diff (concourse.fetchedConfig
                                  (concourse.PipelineConfig (Team atcConfig)
                                     (PipelineName atcConfig))) new).1
                      ++ shownErrors msgs ++ tg), tg.
      split; [done|]. split; [apply trace_around|].
      intros p v d Hin.
      destruct (path_written _ _ _ _ _ _ _ _ Q0 P Hin)
        as (_ & _ & _ & _ & _ & tg' & _ & _ & _ & Eg' & _).
      rewrite Eg in Eg'. discriminate.
    + right. eexists _, _, _. split; [apply Store_after_gate|done].
Qed.

(** X16.  An error returned by [Set] is the error of the fetch, or the
    error of parsing the resolved document, or the error of the store
    after it was written. *)
Theorem Set_returns_errors_of_fetch_parse_or_store
    (atcConfig : ATCConfig Body) (configPath : string)
    (templateVariables : list VariablePairFlag)
    (templateVariablesFiles : list string) (e : error) :
  (Set_ w atcConfig configPath templateVariables templateVariablesFiles).2
    = Return (Some e) ->
  concourse.fetchedErr
    (concourse.PipelineConfig (Team atcConfig) (PipelineName atcConfig)) = Some e
  \/ (exists doc,
        (newConfig w atcConfig configPath templateVariablesFiles templateVariables).2
          = inl doc
        /\ UnmarshalConfig w doc = Err e)
  \/ (exists p v d,
        Store p v d
          ∈ (Set_ w atcConfig configPath templateVariables templateVariablesFiles).1
        /\ concourse.storedErr
             (concourse.CreateOrUpdatePipelineConfig (Team atcConfig) p v d) = Some e).
Proof.
  intros Herr.
  destruct (Set_paths w atcConfig configPath templateVariables templateVariablesFiles)
    as [(t0 & h0 & En & Es)|(t0 & doc & t1 & h & En & P & Es)];
    rewrite Es in *; rewrite En in *; simpl in *.
  - subst h0.
    destruct (newConfig_halt_is_exit w atcConfig configPath templateVariablesFiles
                templateVariables (Return (Some e))) as (m' & e' & ?);
      [by rewrite En|discriminate].
  - subst h.
    inversion P as [e' Hf Ht|msgs e' Ht Hp| |msgs new tg e' Ht Hp Eg Hs
                   |msgs new tg Ht Hp Eg Hs]; subst.
    + by left.
    + right. left. by exists doc.
    + right. right. eexists _, _, _. split; [|done].
      rewrite elem_of_app, elem_of_cons, !elem_of_app, elem_of_cons.
      right. right. right. right. right. by left.
    + match goal with H : _ = Return (Some e) |- _ => rename H into Eh end.
      destruct (showHelpfulMessage atcConfig _ _) as [tm [[]|hm]] eqn:E;
        simpl in Eh; [discriminate|]. subst hm.
      by pose proof (showHelpfulMessage_halt atcConfig _ _ _ (f_equal snd E))
        as (_ & _ & ?).
Qed.

End Never.

(* ===================================================================== *)
(** ** Flags, undecodable payloads and sources that do not matter *)
(* ===================================================================== *)

Section Flags.

Import flaghelpers.
Context {V : Type} (val : VariablePairFlag -> V).

Lemma flag_fold_other (variables : list VariablePairFlag) (m : gmap string V) (k : string) :
  (forall g, g ∈ variables -> Name g <> k) ->
  foldl (fun m f => <[Name f := val f]> m) m variables !! k = m !! k.
Proof.
  revert m. induction variables as [|f variables IH]; intros m Hother; [done|].
  simpl. rewrite IH by (intros g Hg; apply Hother; by right).
  apply lookup_insert_ne, Hother. by left.
Qed.

Lemma flag_fold_last (pre post : list VariablePairFlag) (f : VariablePairFlag)
    (m : gmap string V) :
  (forall g, g ∈ post -> Name g <> Name f) ->
  foldl (fun m f => <[Name f := val f]> m) m (pre ++ f :: post) !! Name f
  = Some (val f).
Proof.
  intros Hpost. rewrite foldl_app. simpl.
  rewrite flag_fold_other by done. apply lookup_insert_eq.
Qed.

Lemma flag_fold_agree (flags1 flags2 : list VariablePairFlag) (m : gmap string V) :
  Forall2 (fun f g => Name f = Name g /\ val f = val g) flags1 flags2 ->
  foldl (fun m f => <[Name f := val f]> m) m flags1
  = foldl (fun m f => <[Name f := val f]> m) m flags2.
Proof.
  intros H. revert m. induction H as [|f g fs gs [Hn Hv] _ IH]; intros m; [done|].
  simpl. by rewrite Hn, Hv, IH.
Qed.

End Flags.

Section Decoding.

Context {Body : Type} `{!EqDecision Body}.
Context (w : World Body).
Import flaghelpers.

(** X1.  In both flag maps the last flag given for a name is the one
    that counts, and a name no flag gives has no entry. *)
Theorem flag_maps_keep_the_last_flag (variables : list VariablePairFlag) (k : string) :
  (forall pre f post,
     variables = pre ++ f :: post ->
     Name f = k ->
     (forall g, g ∈ post -> Name g <> k) ->
     flagVars variables !! k = Some (Value f)
     /\ oldFlagVars variables !! k = Some (OldValue f))
  /\ ((forall g, g ∈ variables -> Name g <> k) ->
      flagVars variables !! k = None /\ oldFlagVars variables !! k = None).
Proof.
  unfold flagVars, oldFlagVars. split.
  - intros pre f post -> <- Hpost. by rewrite !flag_fold_last.
  - intros Hnone. by rewrite !flag_fold_other.
Qed.

Lemma traverse_app_err {A B : Type} (f : A -> Result B) (l1 l2 : list A) (k : list B)
    (a : A) (e : error) :
  Forall2 (fun x y => f x = Ok y) l1 k -> f a = Err e ->
  traverse f (l1 ++ a :: l2) = Err e.
Proof.
  intros H Ha. induction H as [|x y xs ys Hx _ IH]; simpl.
  - by rewrite Ha.
  - by rewrite Hx, IH.
Qed.

(** X2.  [resolveTemplates] decodes the payloads from the last one down:
    when a payload does not decode and all those listed after it do, the
    error returned is the one of that payload, whatever the payloads
    listed before it are and whatever the document is. *)
Theorem resolveTemplates_reports_the_last_undecodable_payload
    (configPayload : string) (pre post : list string) (payload : string)
    (variables : list VariablePairFlag)
    (files : list template.StaticVariables) (e : error) :
  UnmarshalStaticVariables w payload = Err e ->
  Forall2 (fun p F => UnmarshalStaticVariables w p = Ok F) post files ->
  resolveTemplates w configPayload (pre ++ payload :: post) variables = Err e.
Proof.
  intros Hbad Hpost. unfold resolveTemplates, currentVars.
  rewrite rev_app_distr. simpl. rewrite <- app_assoc. simpl.
  by rewrite (traverse_app_err _ _ _ _ _ _ (Forall2_rev _ _ _ Hpost) Hbad).
Qed.

Lemma mergePayloads_stops (pre post : list string) (payload : string)
    (lfiles : list temp.Variables) (e : error) :
  Forall2 (fun p F => UnmarshalVariables w p = Ok F) pre lfiles ->
  UnmarshalVariables w payload = Err e ->
  forall vars, mergePayloads w vars (pre ++ payload :: post) = Err e.
Proof.
  intros Hpre Hbad. induction Hpre as [|p F ps Fs Hp _ IH]; intros vars; simpl.
  - by rewrite Hbad.
  - rewrite Hp. simpl. apply IH.
Qed.

(** X3.  [resolveDeprecatedTemplateStyle] decodes the payloads from the
    first one on: when a payload does not decode and all those listed
    before it do, the error returned is the one of that payload. *)
Theorem resolveDeprecatedTemplateStyle_reports_the_first_undecodable_payload
    (configPayload : string) (pre post : list string) (payload : string)
    (variables : list VariablePairFlag)
    (lfiles : list temp.Variables) (e : error) :
  Forall2 (fun p F => UnmarshalVariables w p = Ok F) pre lfiles ->
  UnmarshalVariables w payload = Err e ->
  resolveDeprecatedTemplateStyle w configPayload (pre ++ payload :: post) variables
  = Err e.
Proof.
  intros Hpre Hbad. unfold resolveDeprecatedTemplateStyle, legacyVars.
  by rewrite (mergePayloads_stops _ _ _ _ _ Hpre Hbad).
Qed.

End Decoding.

Section Independence.

Context {Body : Type} `{!EqDecision Body}.
Import flaghelpers.

Lemma traverse_ext {A B : Type} (f g : A -> Result B) (l : list A) :
  (forall a, f a = g a) -> traverse f l = traverse g l.
Proof.
  intros H. induction l as [|a l IH]; [done|]. simpl. by rewrite H, IH.
Qed.

Lemma readPayloads_ext (w1 w2 : World Body) (templateVariablesFiles : list string) :
  (forall p, ReadFile w1 p = ReadFile w2 p) ->
  readPayloads w1 templateVariablesFiles = readPayloads w2 templateVariablesFiles.
Proof.
  intros H. induction templateVariablesFiles as [|path rest IH]; [done|].
  simpl. by rewrite H, IH.
Qed.

(** X12.  A document without the legacy marker is resolved without the
    legacy sources: two environments that read the same files and decode
    the current variables alike, and two lists of flags with the same
    names and current values, give the same result, whatever the legacy
    decoder and the legacy values of the flags are. *)
Theorem newConfig_without_marker_ignores_legacy_sources
    (w1 w2 : World Body) (atcConfig1 atcConfig2 : ATCConfig Body)
    (configPath : string) (templateVariablesFiles : list string)
    (flags1 flags2 : list VariablePairFlag) (doc : string) :
  (forall p, ReadFile w1 p = ReadFile w2 p) ->
  (forall p, UnmarshalStaticVariables w1 p = UnmarshalStaticVariables w2 p) ->
  Forall2 (fun f g => Name f = Name g /\ Value f = Value g) flags1 flags2 ->
  ReadFile w1 configPath = Ok doc ->
  temp.Present doc = false ->
  newConfig w1 atcConfig1 configPath templateVariablesFiles flags1
  = newConfig w2 atcConfig2 configPath templateVariablesFiles flags2.
Proof.
  intros Hread Hdecode Hflags Hdoc Hold.
  unfold newConfig. rewrite <- Hread, Hdoc. simpl.
  rewrite (readPayloads_ext w1 w2) by done.
  destruct (readPayloads w2 templateVariablesFiles) as [t [ps|h]]; [|done].
  simpl. rewrite Hold. simpl.
  unfold resolveTemplates, currentVars, flagVars.
  rewrite (traverse_ext _ _ _ Hdecode).
  by rewrite (flag_fold_agree Value flags1 flags2 ∅ Hflags).
Qed.

End Independence.

(* ===================================================================== *)
(** ** What [diff] prints *)
(* ===================================================================== *)

Section Printing.

Context {Body : Type} `{!EqDecision Body}.

Lemma renderDiffs_trace (header label : string) (diffs : list (DiffRecord Body)) :
  renderDiffs header label diffs
  = (match diffs with
     | [] => []
     | _ :: _ => Println header :: (Render label <$> diffs)
     end, inl tt).
Proof.
  destruct diffs as [|d diffs]; [done|].
  unfold renderDiffs. by rewrite each_emit.
Qed.

Lemma Render_in_block (header label label' : string)
    (diffs : list (DiffRecord Body)) (d : DiffRecord Body) :
  Render label' d ∈ (renderDiffs header label diffs).1
  <-> label' = label /\ d ∈ diffs.
Proof.
  rewrite renderDiffs_trace. cbn [fst].
  destruct diffs as [|d0 diffs].
  - rewrite !elem_of_nil. tauto.
  - rewrite elem_of_cons, list_elem_of_fmap. split.
    + intros [?|(x & [= -> ->] & Hx)]; [discriminate|done].
    + intros [-> Hd]. right. by exists d.
Qed.

Lemma Println_in_block (header label line : string) (diffs : list (DiffRecord Body)) :
  Println line ∈ (renderDiffs header label diffs).1
  <-> line = header /\ diffs <> [].
Proof.
  rewrite renderDiffs_trace. cbn [fst].
  destruct diffs as [|d0 diffs].
  - rewrite elem_of_nil. tauto.
  - rewrite elem_of_cons, list_elem_of_fmap. split.
    + intros [[= ->]|(x & ? & _)]; [done|discriminate].
    + intros [-> _]. by left.
Qed.

Lemma diff_trace (existingConfig newConfig : Config Body) :
  (diff existingConfig newConfig).1
  = (renderDiffs "groups:" "group"
       (diffIndices (GroupIndex (Groups existingConfig))
          (GroupIndex (Groups newConfig)))).1
    ++ (renderDiffs "resources:" "resource"
          (diffIndices (ResourceIndex (Resources existingConfig))
             (ResourceIndex (Resources newConfig)))).1
    ++ (renderDiffs "resource types:" "resource type"
          (diffIndices (ResourceTypeIndex (ResourceTypes existingConfig))
             (ResourceTypeIndex (ResourceTypes newConfig)))).1
    ++ (renderDiffs "jobs:" "job"
          (diffIndices (JobIndex (Jobs existingConfig))
             (JobIndex (Jobs newConfig)))).1.
Proof.
  unfold diff. rewrite !renderDiffs_trace. reflexivity.
Qed.

(** X14.  [diff] returns normally, renders every record of each of the
    four differences under the label of its kind and renders nothing
    else, and prints the header of a kind exactly when that kind has a
    record. *)
Theorem diff_prints_each_difference (existingConfig newConfig : Config Body) :
  (diff existingConfig newConfig).2 = inl tt
  /\ (forall label d,
        Render label d ∈ (diff existingConfig newConfig).1
        <-> (label = "group"
             /\ d ∈ diffIndices (GroupIndex (Groups existingConfig))
                      (GroupIndex (Groups newConfig)))
            \/ (label = "resource"
                /\ d ∈ diffIndices (ResourceIndex (Resources existingConfig))
                         (ResourceIndex (Resources newConfig)))
            \/ (label = "resource type"
                /\ d ∈ diffIndices (ResourceTypeIndex (ResourceTypes existingConfig))
                         (ResourceTypeIndex (ResourceTypes newConfig)))
            \/ (label = "job"
                /\ d ∈ diffIndices (JobIndex (Jobs existingConfig))
                         (JobIndex (Jobs newConfig))))
  /\ (forall line,
        Println line ∈ (diff existingConfig newConfig).1
        <-> (line = "groups:"
             /\ diffIndices (GroupIndex (Groups existingConfig))
                  (GroupIndex (Groups newConfig)) <> [])
            \/ (line = "resources:"
                /\ diffIndices (ResourceIndex (Resources existingConfig))
                     (ResourceIndex (Resources newConfig)) <> [])
            \/ (line = "resource types:"
                /\ diffIndices (ResourceTypeIndex (ResourceTypes existingConfig))
                     (ResourceTypeIndex (ResourceTypes newConfig)) <> [])
            \/ (line = "jobs:"
                /\ diffIndices (JobIndex (Jobs existingConfig))
                     (JobIndex (Jobs newConfig)) <> [])).
Proof.
  split_and!.
  - by destruct (diff_runs existingConfig newConfig) as (t & -> & _).
  - intros label d. by rewrite diff_trace, !elem_of_app, !Render_in_block.
  - intros line. by rewrite diff_trace, !elem_of_app, !Println_in_block.
Qed.

End Printing.

(* ===================================================================== *)
(** ** When the messages of the fetch are shown *)
(* ===================================================================== *)

Section Messages.

Context {Body : Type} `{!EqDecision Body}.
Context (w : World Body).
Import flaghelpers.

Lemma no_header_in_block (header label : string) (diffs : list (DiffRecord Body)) :
  PrintWarningHeader ∉ (renderDiffs header label diffs).1.
Proof.
  rewrite renderDiffs_trace. cbn [fst]. destruct diffs as [|d diffs].
  - apply not_elem_of_nil.
  - rewrite elem_of_cons, list_elem_of_fmap.
    intros [?|(x & ? & _)]; discriminate.
Qed.

Lemma no_header_in_diff (existingConfig newConfig : Config Body) :
  PrintWarningHeader ∉ (diff existingConfig newConfig).1.
Proof.
  rewrite diff_trace, !elem_of_app.
  intros [H|[H|[H|H]]]; by apply no_header_in_block in H.
Qed.

Lemma no_header_in_gate (atcConfig : ATCConfig Body) tg b :
  ApplyConfigInteraction w atcConfig = (tg, inl b) -> PrintWarningHeader ∉ tg.
Proof.
  intros Eg Hin.
  destruct (ApplyConfigInteraction_cases w atcConfig) as [[_ E]|(_ & b' & E & _)];
    rewrite Eg in E; injection E as -> _.
  - by apply elem_of_nil in Hin.
  - apply elem_of_cons in Hin as [?|?%elem_of_nil]; [discriminate|done].
Qed.

Lemma no_header_in_warnings (warnings : list concourse.ConfigWarning) :
  PrintWarningHeader ∉ shownWarnings (Body := Body) warnings.
Proof.
  destruct warnings as [|c cs]; [apply not_elem_of_nil|].
  unfold shownWarnings. rewrite showWarnings_trace. cbn [fst].
  rewrite !elem_of_cons, elem_of_app, list_elem_of_fmap, elem_of_cons, elem_of_nil.
  intros [?|[?|[(x & ? & _)|[?|[]]]]]; discriminate.
Qed.

Lemma no_header_in_report (atcConfig : ATCConfig Body) (created updated : bool) :
  PrintWarningHeader ∉ (showHelpfulMessage atcConfig created updated).1.
Proof.
  destruct updated, created; simpl;
    rewrite ?elem_of_cons, elem_of_nil; intuition discriminate.
Qed.

Lemma header_in_shownErrors (errorMessages : list string) :
  PrintWarningHeader ∈ shownErrors (Body := Body) errorMessages
  <-> errorMessages <> [].
Proof.
  destruct errorMessages as [|m ms].
  - unfold shownErrors. rewrite elem_of_nil. tauto.
  - unfold shownErrors. rewrite showPipelineConfigErrors_runs. cbn [fst].
    split; [done|]. intros _. right. by left.
Qed.

Lemma toleratedMessages_some (err : option error) (m : string) (ms : list string) :
  toleratedMessages err = Some (m :: ms) <-> err = Some (PipelineConfigError (m :: ms)).
Proof.
  destruct err as [[msgs| | |]|]; simpl; split; intros H; try discriminate;
    congruence.
Qed.

(** X17.  The block that shows the messages of an invalid stored
    configuration is printed exactly in the runs where the document was
    resolved, the fetch failed with a [PipelineConfigError] carrying at
    least one message, and the new document parses; a
    [PipelineConfigError] without any message shows nothing. *)
Theorem Set_shows_the_block_only_with_messages
    (atcConfig : ATCConfig Body) (configPath : string)
    (templateVariables : list VariablePairFlag)
    (templateVariablesFiles : list string) :
  PrintWarningHeader
    ∈ (Set_ w atcConfig configPath templateVariables templateVariablesFiles).1
  <-> exists doc new m ms,
        (newConfig w atcConfig configPath templateVariablesFiles templateVariables).2
          = inl doc
        /\ concourse.fetchedErr
             (concourse.PipelineConfig (Team atcConfig) (PipelineName atcConfig))
           = Some (PipelineConfigError (m :: ms))
        /\ UnmarshalConfig w doc = Ok new.
Proof.
  pose proof (newConfig_only_evaluates w atcConfig configPath templateVariablesFiles
                templateVariables PrintWarningHeader) as H0.
  assert (Hpre : forall t0 doc t1 h,
    (PrintWarningHeader ∈ t0 -> False) ->
    path w atcConfig doc (t1, h) ->
    PrintWarningHeader ∈ t0 ++ t1
    <-> exists new m ms,
          concourse.fetchedErr
            (concourse.PipelineConfig (Team atcConfig) (PipelineName atcConfig))
          = Some (PipelineConfigError (m :: ms))
          /\ UnmarshalConfig w doc = Ok new).
  { intros t0 doc t1 h Ht0 P.
    inversion P as [e Hf Ht|msgs e Ht Hp|msgs new tg Ht Hp Eg|msgs new tg e Ht Hp Eg Hs
                   |msgs new tg Ht Hp Eg Hs]; subst t1 h.
    - rewrite elem_of_app, elem_of_cons, elem_of_nil. split.
      + intros [?|[?|[]]]; [done|discriminate].
      + intros (new & m & ms & Hf' & _). rewrite Hf in Hf'. injection Hf' as ->.
        discriminate.
    - rewrite elem_of_app, elem_of_cons, elem_of_nil. split.
      + intros [?|[?|[]]]; [done|discriminate].
      + intros (new & m & ms & _ & Hp'). congruence.
    - rewrite elem_of_app, elem_of_cons, !elem_of_app, elem_of_cons, elem_of_nil,
        header_in_shownErrors. split.
      + intros [?|[?|[Hd|[Hm|[Hg|[?|[]]]]]]]; try done; try discriminate.
        * by apply no_header_in_diff in Hd.
        * destruct msgs as [|m ms]; [done|].
          exists new, m, ms. split; [by apply toleratedMessages_some|done].
        * by eapply no_header_in_gate in Hg.
      + intros (new' & m & ms & Hf & _). apply toleratedMessages_some in Hf.
        rewrite Hf in Ht. injection Ht as <-. auto.
    - rewrite elem_of_app, elem_of_cons, !elem_of_app, elem_of_cons, elem_of_nil,
        header_in_shownErrors. split.
      + intros [?|[?|[Hd|[Hm|[Hg|[?|[]]]]]]]; try done; try discriminate.
        * by apply no_header_in_diff in Hd.
        * destruct msgs as [|m ms]; [done|].
          exists new, m, ms. split; [by apply toleratedMessages_some|done].
        * by eapply no_header_in_gate in Hg.
      + intros (new' & m & ms & Hf & _). apply toleratedMessages_some in Hf.
        rewrite Hf in Ht. injection Ht as <-. auto.
    - rewrite elem_of_app, elem_of_cons, !elem_of_app, elem_of_cons, elem_of_app,
        header_in_shownErrors. split.
      + intros [?|[?|[Hd|[Hm|[Hg|[?|[Hw|Hr]]]]]]]; try done; try discriminate.
        * by apply no_header_in_diff in Hd.
        * destruct msgs as [|m ms]; [done|].
          exists new, m, ms. split; [by apply toleratedMessages_some|done].
        * by eapply no_header_in_gate in Hg.
        * by apply no_header_in_warnings in Hw.
        * by apply no_header_in_report in Hr.
      + intros (new' & m & ms & Hf & _). apply toleratedMessages_some in Hf.
        rewrite Hf in Ht. injection Ht as <-. auto. }
  destruct (Set_paths w atcConfig configPath templateVariables templateVariablesFiles)
    as [(t0 & h0 & En & Es)|(t0 & doc & t1 & h & En & P & Es)];
    rewrite Es, En in *; simpl in *.
  - split.
    + intros Hin. destruct (H0 Hin) as (d & [?|?]); discriminate.
    + intros (doc & _ & _ & _ & ? & _). discriminate.
  - assert (Ht0 : PrintWarningHeader ∈ t0 -> False).
    { intros Hin. destruct (H0 Hin) as (d & [?|?]); discriminate. }
    rewrite (Hpre t0 doc t1 h Ht0 P). split.
    + intros (new & m & ms & ? & ?). by exists doc, new, m, ms.
    + intros (doc' & new & m & ms & [= <-] & ? & ?). by exists new, m, ms.
Qed.

End Messages.

(* ===================================================================== *)
(** ** The properties above on concrete runs *)
(* ===================================================================== *)

(** X1 with two flags for [region]: the second one counts; [env] has no
    flag. *)
Lemma flag_maps_keep_the_last_flag_witness :
  (flagVars scenario.region_twice !! "region" = Some (VString "us")
   /\ oldFlagVars scenario.region_twice !! "region" = Some "us")
  /\ flagVars scenario.region_twice !! "env" = None
  /\ oldFlagVars scenario.region_twice !! "env" = None.
Proof.
  split.
  - destruct (flag_maps_keep_the_last_flag scenario.region_twice "region") as [Hlast _].
    apply (Hlast [demo.region_eu]
             {| flaghelpers.Name := "region"; flaghelpers.Value := VString "us";
                flaghelpers.OldValue := "us" |} []);
      [reflexivity|reflexivity|].
    intros g Hg. by apply elem_of_nil in Hg.
  - destruct (flag_maps_keep_the_last_flag scenario.region_twice "env") as [_ Hnone].
    apply Hnone. intros g Hg.
    apply elem_of_cons in Hg as [->|Hg]; [discriminate|].
    apply elem_of_cons in Hg as [->|Hg]; [discriminate|].
    by apply elem_of_nil in Hg.
Defined.

(** X2 with payloads [oops], a good one, [junk]: the error is about
    [junk]. *)
Lemma resolveTemplates_reports_the_last_undecodable_payload_witness :
  resolveTemplates (demo.world (Ok true)) "jobs: []"
    (["oops"; "env: staging"] ++ "junk" :: []) [] = Err (DecodeError "junk").
Proof.
  apply (resolveTemplates_reports_the_last_undecodable_payload (demo.world (Ok true))
           "jobs: []" ["oops"; "env: staging"] [] "junk" [] [] (DecodeError "junk")).
  - reflexivity.
  - constructor.
Defined.

(** X3 with the same payloads: the error is about [oops]. *)
Lemma resolveDeprecatedTemplateStyle_reports_the_first_undecodable_payload_witness :
  resolveDeprecatedTemplateStyle (demo.world (Ok true)) "jobs: []"
    ([] ++ "oops" :: ["env: staging"; "junk"]) [] = Err (DecodeError "oops").
Proof.
  apply (resolveDeprecatedTemplateStyle_reports_the_first_undecodable_payload
           (demo.world (Ok true)) "jobs: []" [] ["env: staging"; "junk"] "oops" [] []
           (DecodeError "oops")).
  - constructor.
  - reflexivity.
Defined.

(** X4 with a missing second variable file. *)
Lemma newConfig_stops_at_first_unreadable_file_witness :
  newConfig (demo.world (Ok true)) (demo.atcConfig None false true false)
    "pipeline.yml" (["vars1.yml"] ++ "missing.yml" :: ["vars2.yml"]) []
  = ([], inr (Exit ("could not read template variables file (" +:+ "missing.yml" +:+ ")")
                (GenericError "no such file"))).
Proof.
  apply (newConfig_stops_at_first_unreadable_file (demo.world (Ok true))
           (demo.atcConfig None false true false) "pipeline.yml"
           ["vars1.yml"] ["vars2.yml"] "missing.yml" []
           "env: ((env)) region: ((region))" ["env: staging"]
           (GenericError "no such file")).
  - reflexivity.
  - repeat constructor.
  - reflexivity.
Defined.

(** X5 with a pipeline one of whose variables has no value: the exit is
    the one of the current evaluator, run on the document as read, and it
    carries the error [resolveTemplates] returned. *)
Lemma newConfig_halts_only_by_exit_witness :
  exists doc paramPayloads doc' e,
    ReadFile (demo.world (Ok true)) "pipeline.yml" = Ok doc
    /\ Forall2 (fun q p => ReadFile (demo.world (Ok true)) q = Ok p)
         ["vars1.yml"] paramPayloads
    /\ ((temp.Present doc = true
         /\ resolveDeprecatedTemplateStyle (demo.world (Ok true)) doc paramPayloads []
            = Ok doc')
        \/ (temp.Present doc = false /\ doc' = doc))
    /\ resolveTemplates (demo.world (Ok true)) doc' paramPayloads [] = Err e
    /\ Exit "could not resolve template vars" (MissingVariableError ["region"])
       = Exit "could not resolve template vars" e.
Proof.
  destruct (newConfig_halts_only_by_exit (demo.world (Ok true))
              (demo.atcConfig None false true false) "pipeline.yml" ["vars1.yml"] []
              (Exit "could not resolve template vars" (MissingVariableError ["region"]))
              eq_refl)
    as [(e & _ & H)|[(doc & pre & path & post & ps & e & _ & _ & _ & _ & H)
       |[(doc & ps & e & _ & _ & _ & _ & H)|H]]].
  - discriminate H.
  - discriminate H.
  - discriminate H.
  - exact H.
Defined.

(** X6 with a pipeline one of whose variables has no value. *)
Lemma Set_exits_before_any_contact_witness :
  newConfig (demo.world (Ok true)) (demo.atcConfig None false true false)
    "pipeline.yml" ["vars1.yml"] []
  = ((Set_ (demo.world (Ok true)) (demo.atcConfig None false true false)
        "pipeline.yml" [] ["vars1.yml"]).1,
     inr (Exit "could not resolve template vars" (MissingVariableError ["region"])))
  /\ forall ev,
       ev ∈ (Set_ (demo.world (Ok true)) (demo.atcConfig None false true false)
               "pipeline.yml" [] ["vars1.yml"]).1 ->
       exists d, ev = LegacyEvaluator d \/ ev = CurrentEvaluator d.
Proof.
  apply (Set_exits_before_any_contact (demo.world (Ok true))
           (demo.atcConfig None false true false) "pipeline.yml" [] ["vars1.yml"]
           "could not resolve template vars" (MissingVariableError ["region"])).
  vm_compute. reflexivity.
Defined.

(** X7 with a store that answers with a version conflict. *)
Lemma Set_returns_the_store_error_witness :
  (Set_ (demo.world (Ok true)) (scenario.atcConfig scenario.conflict false)
     "plain.yml" [] []).2 = Return (Some (GenericError "version conflict"))
  /\ exists pre,
      (Set_ (demo.world (Ok true)) (scenario.atcConfig scenario.conflict false)
         "plain.yml" [] []).1 = pre ++ [Store "p" "42" "jobs: []"].
Proof.
  apply (Set_returns_the_store_error (demo.world (Ok true))
           (scenario.atcConfig scenario.conflict false) "plain.yml" [] []
           "p" "42" "jobs: []" (GenericError "version conflict")).
  - vm_compute. repeat constructor.
  - reflexivity.
Defined.

(** X8 with a store that sets neither flag. *)
Lemma Set_panics_only_after_store_witness :
  exists p v d,
    Store p v d
      ∈ (Set_ (demo.world (Ok true)) (demo.atcConfig None false false true)
           "plain.yml" [] []).1
    /\ concourse.storedErr
         (concourse.CreateOrUpdatePipelineConfig
            (Team (demo.atcConfig None false false true)) p v d) = None
    /\ concourse.storedCreated
         (concourse.CreateOrUpdatePipelineConfig
            (Team (demo.atcConfig None false false true)) p v d) = false
    /\ concourse.storedUpdated
         (concourse.CreateOrUpdatePipelineConfig
            (Team (demo.atcConfig None false false true)) p v d) = false.
Proof.
  apply (Set_panics_only_after_store (demo.world (Ok true))
           (demo.atcConfig None false false true) "plain.yml" [] []
           "Something really went wrong!").
  vm_compute. reflexivity.
Defined.

(** X9 with the interaction skipped, and with the prompt consulted. *)
Lemma Set_prompts_at_most_once_witness :
  List.filter isInteraction
    (Set_ (demo.world (Ok true)) (demo.atcConfig None false true true)
       "plain.yml" [] []).1 = []
  /\ length (List.filter isInteraction
               (Set_ (demo.world (Ok true)) (demo.atcConfig None false true false)
                  "plain.yml" [] []).1) <= 1.
Proof.
  split.
  - apply (Set_prompts_at_most_once (demo.world (Ok true))
             (demo.atcConfig None false true true) "plain.yml" [] []).
    reflexivity.
  - apply (Set_prompts_at_most_once (demo.world (Ok true))
             (demo.atcConfig None false true false) "plain.yml" [] []).
Defined.

(** X10 with an operator who accepts. *)
Lemma Set_stores_only_on_skip_or_yes_witness :
  SkipInteraction (demo.atcConfig None false true false) = true
  \/ Resolve (demo.world (Ok true)) "apply configuration?" = Ok true.
Proof.
  apply (Set_stores_only_on_skip_or_yes (demo.world (Ok true))
           (demo.atcConfig None false true false) "plain.yml" [] []
           "p" "42" "jobs: []").
  vm_compute. repeat constructor.
Defined.

(** X11 with the same run. *)
Lemma Set_stores_what_was_parsed_and_diffed_witness :
  (newConfig (demo.world (Ok true)) (demo.atcConfig None false true false)
     "plain.yml" [] []).2 = inl "jobs: []"
  /\ exists errorMessages new,
      toleratedMessages
        (concourse.fetchedErr
           (concourse.PipelineConfig (Team (demo.atcConfig None false true false))
              (PipelineName (demo.atcConfig None false true false))))
        = Some errorMessages
      /\ UnmarshalConfig (demo.world (Ok true)) "jobs: []" = Ok new
      /\ forall ev,
           ev ∈ (diff (concourse.fetchedConfig
                         (concourse.PipelineConfig
                            (Team (demo.atcConfig None false true false))
                            (PipelineName (demo.atcConfig None false true false))))
                   new).1 ->
           ev ∈ (Set_ (demo.world (Ok true)) (demo.atcConfig None false true false)
                   "plain.yml" [] []).1.
Proof.
  apply (Set_stores_what_was_parsed_and_diffed (demo.world (Ok true))
           (demo.atcConfig None false true false) "plain.yml" [] []
           "p" "42" "jobs: []").
  vm_compute. repeat constructor.
Defined.

(** X12 with a pipeline in the current syntax only, against an
    environment whose legacy decoder always fails and a flag with another
    legacy value. *)
Lemma newConfig_without_marker_ignores_legacy_sources_witness :
  newConfig (demo.world (Ok true)) (demo.atcConfig None false true false)
    "pipeline.yml" ["vars1.yml"; "vars2.yml"] [demo.region_eu]
  = newConfig (scenario.world_without_legacy (Ok true))
      (demo.atcConfig None false true false)
      "pipeline.yml" ["vars1.yml"; "vars2.yml"] [scenario.region_eu_raw].
Proof.
  apply (newConfig_without_marker_ignores_legacy_sources (demo.world (Ok true))
           (scenario.world_without_legacy (Ok true))
           (demo.atcConfig None false true false) (demo.atcConfig None false true false)
           "pipeline.yml" ["vars1.yml"; "vars2.yml"]
           [demo.region_eu] [scenario.region_eu_raw]
           "env: ((env)) region: ((region))").
  - intros p. reflexivity.
  - intros p. reflexivity.
  - repeat constructor.
  - reflexivity.
  - reflexivity.
Defined.

(** X13 with a store that answers with one warning. *)
Lemma Set_prints_the_store_warnings_witness :
  exists pre post,
    (Set_ (demo.world (Ok true)) (scenario.atcConfig scenario.deprecated true)
       "plain.yml" [] []).1 = pre ++ Store "p" "42" "jobs: []" :: post
    /\ Errln ("  - " +:+ concourse.Message
                           {| concourse.Message := "jobs.x.y is deprecated" |}) ∈ post.
Proof.
  apply (Set_prints_the_store_warnings (demo.world (Ok true))
           (scenario.atcConfig scenario.deprecated true) "plain.yml" [] []
           "p" "42" "jobs: []" {| concourse.Message := "jobs.x.y is deprecated" |}).
  - vm_compute. repeat constructor.
  - reflexivity.
  - vm_compute. repeat constructor.
Defined.

(** X15 with an operator who declines. *)
Lemma Set_returns_nil_after_refusal_or_success_witness :
  (exists pre tg,
     ApplyConfigInteraction (demo.world (Ok false))
       (demo.atcConfig None false true false) = (tg, inl false)
     /\ (Set_ (demo.world (Ok false)) (demo.atcConfig None false true false)
           "plain.yml" [] []).1 = pre ++ [Println "bailing out"]
     /\ forall p v d,
          Store p v d
            ∉ (Set_ (demo.world (Ok false)) (demo.atcConfig None false true false)
                 "plain.yml" [] []).1)
  \/ (exists p v d,
        Store p v d
          ∈ (Set_ (demo.world (Ok false)) (demo.atcConfig None false true false)
               "plain.yml" [] []).1
        /\ concourse.storedErr
             (concourse.CreateOrUpdatePipelineConfig
                (Team (demo.atcConfig None false true false)) p v d) = None).
Proof.
  apply (Set_returns_nil_after_refusal_or_success (demo.world (Ok false))
           (demo.atcConfig None false true false) "plain.yml" [] []).
  vm_compute. reflexivity.
Defined.

(** X16 with a store that answers with a version conflict. *)
Lemma Set_returns_errors_of_fetch_parse_or_store_witness :
  concourse.fetchedErr
    (concourse.PipelineConfig (Team (scenario.atcConfig scenario.conflict true))
       (PipelineName (scenario.atcConfig scenario.conflict true)))
    = Some (GenericError "version conflict")
  \/ (exists doc,
        (newConfig (demo.world (Ok true)) (scenario.atcConfig scenario.conflict true)
           "plain.yml" [] []).2 = inl doc
        /\ UnmarshalConfig (demo.world (Ok true)) doc
           = Err (GenericError "version conflict"))
  \/ (exists p v d,
        Store p v d
          ∈ (Set_ (demo.world (Ok true)) (scenario.atcConfig scenario.conflict true)
               "plain.yml" [] []).1
        /\ concourse.storedErr
             (concourse.CreateOrUpdatePipelineConfig
                (Team (scenario.atcConfig scenario.conflict true)) p v d)
           = Some (GenericError "version conflict")).
Proof.
  apply (Set_returns_errors_of_fetch_parse_or_store (demo.world (Ok true))
           (scenario.atcConfig scenario.conflict true) "plain.yml" [] []
           (GenericError "version conflict")).
  vm_compute. reflexivity.
Defined.

(** X17 with a stored configuration reported invalid with one message,
    and with one reported invalid without any message. *)
Lemma Set_shows_the_block_only_with_messages_witness :
  PrintWarningHeader
    ∈ (Set_ (demo.world (Ok true))
         (demo.atcConfig (Some (PipelineConfigError ["bad resource"])) false true false)
         "plain.yml" [] []).1
  /\ PrintWarningHeader
       ∉ (Set_ (demo.world (Ok true))
            (demo.atcConfig (Some (PipelineConfigError [])) false true false)
            "plain.yml" [] []).1.
Proof.
  split.
  - apply (Set_shows_the_block_only_with_messages (demo.world (Ok true))
             (demo.atcConfig (Some (PipelineConfigError ["bad resource"]))
                false true false) "plain.yml" [] []).
    eexists "jobs: []", _, "bad resource", []. split_and!; reflexivity.
  - intros Hin.
    apply (Set_shows_the_block_only_with_messages (demo.world (Ok true))
             (demo.atcConfig (Some (PipelineConfigError [])) false true false)
             "plain.yml" [] []) in Hin.
    destruct Hin as (doc & new & m & ms & _ & Hfetch & _). discriminate Hfetch.
Defined.

(* ===================================================================== *)
(** ** An invalid stored configuration does not stop the run *)
(* ===================================================================== *)

Section Tolerance.

Context {Body : Type} `{!EqDecision Body}.
Context (w : World Body).
Import flaghelpers.

Lemma shownErrors_lines (errorMessages : list string) (m : string) :
  m ∈ errorMessages ->
  Errln ("  - " +:+ m) ∈ shownErrors (Body := Body) errorMessages.
Proof.
  intros Hm. destruct errorMessages as [|m0 ms]; [by apply elem_of_nil in Hm|].
  unfold shownErrors. rewrite showPipelineConfigErrors_runs. cbn [fst].
  do 3 right. apply elem_of_app. left.
  unfold messageLines. apply list_elem_of_fmap. by exists m.
Qed.

Lemma toleratedMessages_other (e : error) :
  (forall errorMessages, e <> PipelineConfigError errorMessages) ->
  toleratedMessages (Some e) = None.
Proof. intros H. destruct e as [msgs| | |]; [by destruct (H msgs)|done..]. Qed.

(** C7.  Let the document be resolved.  When the fetch of the existing
    configuration fails with a [PipelineConfigError] and the new document
    parses, the run goes on after the fetch with three stretches.  First
    the output of [diff] on the configuration returned with the error and
    the parsed one: every record of the four differences is rendered
    under the label of its kind, and the header of a kind is printed
    exactly when it has a record.  Then a line for every error message.
    Then the confirmation step: with [SkipInteraction] the store is
    written at once; otherwise the prompt is consulted, and the store is
    written when it answers yes, while any other answer bails out with
    [nil].  Any other fetch error ends the run right after the fetch,
    with that error, before anything of the diff. *)
Theorem Set_tolerates_invalid_existing_config
    (atcConfig : ATCConfig Body) (configPath : string)
    (templateVariables : list VariablePairFlag)
    (templateVariablesFiles : list string)
    (t0 : list (event Body)) (doc : string) :
  newConfig w atcConfig configPath templateVariablesFiles templateVariables
    = (t0, inl doc) ->
  (forall errorMessages new,
     concourse.fetchedErr
       (concourse.PipelineConfig (Team atcConfig) (PipelineName atcConfig))
       = Some (PipelineConfigError errorMessages) ->
     UnmarshalConfig w doc = Ok new ->
     exists rendered shown tg rest,
       (Set_ w atcConfig configPath templateVariables templateVariablesFiles).1
       = t0 ++ Fetch (PipelineName atcConfig) :: rendered ++ shown ++ tg ++ rest
       /\ rendered
          = (diff (concourse.fetchedConfig
                     (concourse.PipelineConfig (Team atcConfig)
                        (PipelineName atcConfig))) new).1
       /\ (forall label d,
             Render label d ∈ rendered
             <-> (label = "group"
                  /\ d ∈ diffIndices
                           (GroupIndex
                              (Groups (concourse.fetchedConfig
                                         (concourse.PipelineConfig (Team atcConfig)
                                            (PipelineName atcConfig)))))
                           (GroupIndex (Groups new)))
                 \/ (label = "resource"
                     /\ d ∈ diffIndices
                              (ResourceIndex
                                 (Resources (concourse.fetchedConfig
                                               (concourse.PipelineConfig (Team atcConfig)
                                                  (PipelineName atcConfig)))))
                              (ResourceIndex (Resources new)))
                 \/ (label = "resource type"
                     /\ d ∈ diffIndices
                              (ResourceTypeIndex
                                 (ResourceTypes
                                    (concourse.fetchedConfig
                                       (concourse.PipelineConfig (Team atcConfig)
                                          (PipelineName atcConfig)))))
                              (ResourceTypeIndex (ResourceTypes new)))
                 \/ (label = "job"
                     /\ d ∈ diffIndices
                              (JobIndex
                                 (Jobs (concourse.fetchedConfig
                                          (concourse.PipelineConfig (Team atcConfig)
                                             (PipelineName atcConfig)))))
                              (JobIndex (Jobs new))))
       /\ (forall line,
             Println line ∈ rendered
             <-> (line = "groups:"
                  /\ diffIndices
                       (GroupIndex
                          (Groups (concourse.fetchedConfig
                                     (concourse.PipelineConfig (Team atcConfig)
                                        (PipelineName atcConfig)))))
                       (GroupIndex (Groups new)) <> [])
                 \/ (line = "resources:"
                     /\ diffIndices
                          (ResourceIndex
                             (Resources (concourse.fetchedConfig
                                           (concourse.PipelineConfig (Team atcConfig)
                                              (PipelineName atcConfig)))))
                          (ResourceIndex (Resources new)) <> [])
                 \/ (line = "resource types:"
                     /\ diffIndices
                          (ResourceTypeIndex
                             (ResourceTypes
                                (concourse.fetchedConfig
                                   (concourse.PipelineConfig (Team atcConfig)
                                      (PipelineName atcConfig)))))
                          (ResourceTypeIndex (ResourceTypes new)) <> [])
                 \/ (line = "jobs:"
                     /\ diffIndices
                          (JobIndex
                             (Jobs (concourse.fetchedConfig
                                      (concourse.PipelineConfig (Team atcConfig)
                                         (PipelineName atcConfig)))))
                          (JobIndex (Jobs new)) <> []))
       /\ (forall m, m ∈ errorMessages -> Errln ("  - " +:+ m) ∈ shown)
       /\ (errorMessages <> [] -> PrintWarningHeader ∈ shown)
       /\ tg = (ApplyConfigInteraction w atcConfig).1
       /\ (SkipInteraction atcConfig = true ->
           tg = []
           /\ exists rest',
               rest = Store (PipelineName atcConfig)
                        (concourse.fetchedVersion
                           (concourse.PipelineConfig (Team atcConfig)
                              (PipelineName atcConfig)))
                        doc :: rest')
       /\ (SkipInteraction atcConfig = false ->
           tg = [Interaction "apply configuration?"]
           /\ (Resolve w "apply configuration?" = Ok true ->
               exists rest',
                 rest = Store (PipelineName atcConfig)
                          (concourse.fetchedVersion
                             (concourse.PipelineConfig (Team atcConfig)
                                (PipelineName atcConfig)))
                          doc :: rest')
           /\ (Resolve w "apply configuration?" <> Ok true ->
               rest = [Println "bailing out"]
               /\ (Set_ w atcConfig configPath templateVariables
                     templateVariablesFiles).2 = Return None)))
  /\ (forall e,
       concourse.fetchedErr
         (concourse.PipelineConfig (Team atcConfig) (PipelineName atcConfig))
         = Some e ->
       (forall errorMessages, e <> PipelineConfigError errorMessages) ->
       Set_ w atcConfig configPath templateVariables templateVariablesFiles
       = (t0 ++ [Fetch (PipelineName atcConfig)], Return (Some e))).
Proof.
  intros Hnew.
  destruct (Set_paths w atcConfig configPath templateVariables templateVariablesFiles)
    as [(t0' & h0 & En & Es)|(t0' & doc' & t1 & h & En & P & Es)];
    rewrite En in Hnew; [discriminate|].
  injection Hnew as -> ->. rewrite Es. cbn [fst snd]. split.
  - intros errorMessages new Hfetch Hparse.
    assert (Hshape : exists tg rest,
      t1 = Fetch (PipelineName atcConfig)
             :: (diff (concourse.fetchedConfig
                         (concourse.PipelineConfig (Team atcConfig)
                            (PipelineName atcConfig))) new).1
             ++ shownErrors errorMessages ++ tg ++ rest
      /\ exists b,
          ApplyConfigInteraction w atcConfig = (tg, inl b)
          /\ (b = true ->
              exists rest',
                rest = Store (PipelineName atcConfig)
                         (concourse.fetchedVersion
                            (concourse.PipelineConfig (Team atcConfig)
                               (PipelineName atcConfig)))
                         doc :: rest')
          /\ (b = false -> rest = [Println "bailing out"] /\ h = Return None)).
    { inversion P as [e Hf Ht|msgs e Ht Hp|msgs new' tg Ht Hp Eg
                     |msgs new' tg e Ht Hp Eg Hs|msgs new' tg Ht Hp Eg Hs]; subst t1 h.
      - rewrite Hfetch in Hf. injection Hf as <-. discriminate.
      - congruence.
      - rewrite Hfetch in Ht. injection Ht as <-.
        rewrite Hparse in Hp. injection Hp as <-.
        exists tg, [Println "bailing out"]. split; [done|].
        exists false. split_and!; [done|discriminate|done].
      - rewrite Hfetch in Ht. injection Ht as <-.
        rewrite Hparse in Hp. injection Hp as <-.
        eexists tg, _. split; [reflexivity|].
        exists true. split_and!; [done| |discriminate]. intros _. by eexists.
      - rewrite Hfetch in Ht. injection Ht as <-.
        rewrite Hparse in Hp. injection Hp as <-.
        eexists tg, _. split; [reflexivity|].
        exists true. split_and!; [done| |discriminate]. intros _. by eexists. }
    destruct Hshape as (tg & rest & -> & b & Eg & Hyes & Hno).
    exists (diff (concourse.fetchedConfig
                    (concourse.PipelineConfig (Team atcConfig)
                       (PipelineName atcConfig))) new).1,
           (shownErrors errorMessages), tg, rest.
    split_and!.
    + done.
    + done.
    + intros label d. by rewrite diff_trace, !elem_of_app, !Render_in_block.
    + intros line. by rewrite diff_trace, !elem_of_app, !Println_in_block.
    + intros m. apply shownErrors_lines.
    + intros Hne. by apply header_in_shownErrors.
    + by rewrite Eg.
    + intros Hskip.
      destruct (ApplyConfigInteraction_cases w atcConfig) as [[_ E]|[Hs _]];
        [|congruence].
      rewrite Eg in E. injection E as -> ->. split; [done|]. by apply Hyes.
    + intros Hskip.
      destruct (ApplyConfigInteraction_cases w atcConfig) as [[Hs _]|(_ & b' & E & Hb)];
        [congruence|].
      rewrite Eg in E. injection E as -> <-. split_and!; [done| |].
      * intros Hok. apply Hyes. by apply Hb.
      * intros Hnot. apply Hno. destruct b; [|done]. destruct Hnot. by apply Hb.
  - intros e Hfetch Hother.
    pose proof (toleratedMessages_other e Hother) as Hnone.
    inversion P as [e' Hf Ht|msgs e' Ht Hp|msgs new' tg Ht Hp Eg
                   |msgs new' tg e' Ht Hp Eg Hs|msgs new' tg Ht Hp Eg Hs]; subst t1 h;
      try (rewrite Hfetch in Ht; congruence).
    rewrite Hfetch in Hf. by injection Hf as <-.
Qed.

End Tolerance.

(** C7 on three runs over a pipeline whose new configuration adds
    resource [b].  The stored configuration is reported invalid with one
    message and the operator says yes: the added resource is rendered
    under its header, the message is shown, the prompt is consulted, and
    the store is written.  The same with an operator who declines: the
    run bails out with [nil].  The fetch fails otherwise: the run ends
    right after the fetch. *)
Lemma Set_tolerates_invalid_existing_config_witness :
  (exists rendered shown rest',
     (Set_ (demo.world (Ok true))
        (demo.atcConfig (Some (PipelineConfigError ["bad resource"])) false true false)
        "plain.yml" [] []).1
     = [CurrentEvaluator "jobs: []"]
         ++ Fetch "p" :: rendered ++ shown
         ++ [Interaction "apply configuration?"]
         ++ Store "p" "42" "jobs: []" :: rest'
     /\ Render "resource" (Added (demo.resource "b" "s3")) ∈ rendered
     /\ Println "resources:" ∈ rendered
     /\ Errln ("  - " +:+ "bad resource") ∈ shown
     /\ PrintWarningHeader ∈ shown)
  /\ (exists rendered shown,
        Set_ (demo.world (Ok false))
          (demo.atcConfig (Some (PipelineConfigError ["bad resource"])) false true false)
          "plain.yml" [] []
        = ([CurrentEvaluator "jobs: []"]
             ++ Fetch "p" :: rendered ++ shown
             ++ [Interaction "apply configuration?"]
             ++ [Println "bailing out"],
           Return None)
        /\ Render "resource" (Added (demo.resource "b" "s3")) ∈ rendered)
  /\ Set_ (demo.world (Ok true))
       (demo.atcConfig (Some (GenericError "connection refused")) false true false)
       "plain.yml" [] []
     = ([CurrentEvaluator "jobs: []"] ++ [Fetch "p"],
        Return (Some (GenericError "connection refused"))).
Proof.
  split_and!.
  - destruct (Set_tolerates_invalid_existing_config (demo.world (Ok true))
                (demo.atcConfig (Some (PipelineConfigError ["bad resource"]))
                   false true false)
                "plain.yml" [] [] [CurrentEvaluator "jobs: []"] "jobs: []" eq_refl)
      as [Hinvalid _].
    destruct (Hinvalid ["bad resource"] _ eq_refl eq_refl)
      as (rendered & shown & tg & rest & Htrace & _ & Hrender & Hprint & Hshown
          & Hheader & _ & _ & Hprompt).
    destruct (Hprompt eq_refl) as (-> & Hyes & _).
    destruct (Hyes eq_refl) as (rest' & ->).
    exists rendered, shown, rest'. split_and!.
    + exact Htrace.
    + apply Hrender. right. left. split; [reflexivity|].
      vm_compute. repeat constructor.
    + apply Hprint. right. left. split; [reflexivity|].
      vm_compute. discriminate.
    + apply Hshown. repeat constructor.
    + apply Hheader. discriminate.
  - destruct (Set_tolerates_invalid_existing_config (demo.world (Ok false))
                (demo.atcConfig (Some (PipelineConfigError ["bad resource"]))
                   false true false)
                "plain.yml" [] [] [CurrentEvaluator "jobs: []"] "jobs: []" eq_refl)
      as [Hinvalid _].
    destruct (Hinvalid ["bad resource"] _ eq_refl eq_refl)
      as (rendered & shown & tg & rest & Htrace & _ & Hrender & _ & _
          & _ & _ & _ & Hprompt).
    destruct (Hprompt eq_refl) as (-> & _ & Hno).
    destruct (Hno ltac:(discriminate)) as (-> & Hnil).
    exists rendered, shown. split.
    + apply injective_projections; [exact Htrace|exact Hnil].
    + apply Hrender. right. left. split; [reflexivity|].
      vm_compute. repeat constructor.
  - destruct (Set_tolerates_invalid_existing_config (demo.world (Ok true))
                (demo.atcConfig (Some (GenericError "connection refused"))
                   false true false)
                "plain.yml" [] [] [CurrentEvaluator "jobs: []"] "jobs: []" eq_refl)
      as [_ Hother].
    apply Hother; [reflexivity|discriminate].
Defined.
